(** * spyns: the simulation driver ([spyns/run.py])

    A shallow embedding of the driver of the Ising-model Monte Carlo
    simulation.  [run.py] sequences seeding, lattice construction, the
    equilibration sweeps, the full-state checkpoint, the production sweeps
    and the final report.  The functions it calls in [spyns.lattice],
    [spyns.data], [spyns.sampling] and [spyns.model] are modelled from the
    specification; the numerical kernel (neighbour tables, Metropolis trial
    updates, observables) is an interface, [Core].

    Conventions.
    - Python integers are [Z]; [range n] is empty for [n <= 0].
    - Python floats are idealised as exact rationals [Q]; rounding is out of
      scope.  Dividing by an integer zero raises [ZeroDivisionError].
    - Python code mutates one [SimulationData] object that every phase
      receives by reference.  The object is a cell of the [World]; the cell
      is filled by [setup_containers] and nothing reads it before.
    - Exceptions keep the effects performed before they were raised: a
      computation maps a world to a world and an outcome.
    - [calls] is the history of the calls the driver has made, in order.
    - [np.random.seed] is numpy's: it accepts an integer seed between 0 and
      2^32 - 1 and raises [ValueError] for any other, leaving the generator
      as it was. *)

From Stdlib Require Import String ZArith QArith List Bool Lia.
Import ListNotations.

Local Open Scope Z_scope.

(** ** Outcomes *)

Inductive Exn : Type :=
| NoSamplesRecordedError
| InvalidTemperatureError
| InvalidDimensionsError
| NeighborhoodCoefficientMismatchError
| StateSizeMismatchError
| ZeroDivisionError
| ValueError.

Inductive Result (A : Type) : Type :=
| Ok (a : A)
| Err (e : Exn).

Arguments Ok {A} a.
Arguments Err {A} e.

(** ** Data model *)

Definition SpinState : Type := list Z.
Definition Offset : Type := list Z.

Record SimulationParameters : Type := {
  seed : Z;
  dimensions : list Z;
  neighborhood : list Offset;
  interaction_coefficients : list Q;
  temperature : Q;
  equilibration_sweeps : Z;
  sweeps : Z
}.

Record BinaryLattice : Type := {
  lattice_dimensions : list Z;
  number_sites : Z;
  neighbor_table : list (list Z);
  lattice_coefficients : list Q
}.

(** Modelled from the spec: the estimator accumulator of section 3 and 4.5
    ([spyns.data] is not among the sources): a running total and the number
    of samples recorded. *)
Record Accumulator : Type := {
  total : Q;
  count : Z
}.

Record Estimators : Type := {
  energy_acc : Accumulator;
  magnetization_acc : Accumulator;
  magnetization_even_sites_acc : Accumulator;
  magnetization_odd_sites_acc : Accumulator
}.

Record SimulationData : Type := {
  parameters : SimulationParameters;
  state : SpinState;
  estimators : Estimators;
  trace : list SpinState
}.

Inductive Observable : Type :=
| Energy
| Magnetization
| MagnetizationEvenSites
| MagnetizationOddSites.

(** The calls [run.py] makes, as they appear in its text. *)
Inductive Call : Type :=
| CallSeed (s : Z)
| CallBinaryLattice
| CallSampleRandomState
| CallSetupContainers
| CallSweepGrid (sweep_index : Z) (equilibration_run : bool)
| CallSaveFullState
| CallWriteTrace
| CallPrint (label : string) (value : Q).

(** ** The numerical kernel as an interface *)

Class Core : Type := {
  Rng : Type;
  (** [np.random.seed] *)
  seed_generator : Z -> Rng;
  (** section 4.1: the largest number of sites that site indices can
      address *)
  max_sites : Z;
  (** section 4.1: the neighbour of every site under every offset *)
  neighbors_of : list Z -> list Offset -> list (list Z);
  (** section 4.2: one Bernoulli draw per site *)
  draw_state : BinaryLattice -> Rng -> SpinState * Rng;
  (** section 4.4: the [number_sites] Metropolis trial updates of a sweep *)
  trial_updates : BinaryLattice -> Q -> SpinState -> Rng -> SpinState * Rng;
  (** section 4.3 *)
  total_energy : BinaryLattice -> SpinState -> Q;
  magnetization : SpinState -> Q;
  sublattice_magnetization : BinaryLattice -> SpinState -> bool -> Q;
  draw_state_length : forall l g,
    0 <= number_sites l ->
    Z.of_nat (length (fst (draw_state l g))) = number_sites l;
  trial_updates_length : forall l t s g,
    length (fst (trial_updates l t s g)) = length s
}.

(** ** Worlds and computations *)

Section Driver.

Context {core : Core}.

Record World : Type := {
  np_random : Rng;
  data : SimulationData;
  disk : list (list SpinState);
  calls : list Call
}.

Definition M (A : Type) : Type := World -> World * Result A.

Definition ret {A : Type} (a : A) : M A := fun w => (w, Ok a).

Definition raise {A : Type} (e : Exn) : M A := fun w => (w, Err e).

Definition bind {A B : Type} (m : M A) (k : A -> M B) : M B :=
  fun w =>
    match m w with
    | (w', Ok a) => k a w'
    | (w', Err e) => (w', Err e)
    end.

Notation "x <- m ;; k" := (bind m (fun x => k))
  (at level 61, m at next level, right associativity).
Notation "m ;; k" := (bind m (fun _ => k))
  (at level 61, right associativity).

Definition emit (c : Call) : M unit :=
  fun w => ({| np_random := np_random w; data := data w; disk := disk w;
               calls := calls w ++ [c] |}, Ok tt).

Definition get_data : M SimulationData := fun w => (w, Ok (data w)).

Definition set_data (d : SimulationData) : M unit :=
  fun w => ({| np_random := np_random w; data := d; disk := disk w;
               calls := calls w |}, Ok tt).

Definition set_rng (g : Rng) : M unit :=
  fun w => ({| np_random := g; data := data w; disk := disk w;
               calls := calls w |}, Ok tt).

Definition get_rng : M Rng := fun w => (w, Ok (np_random w)).

Definition append_disk (t : list SpinState) : M unit :=
  fun w => ({| np_random := np_random w; data := data w;
               disk := disk w ++ [t]; calls := calls w |}, Ok tt).

(** [for x in xs: body(x)] *)
Fixpoint for_each {A : Type} (xs : list A) (body : A -> M unit) : M unit :=
  match xs with
  | [] => ret tt
  | x :: xs' => body x ;; for_each xs' body
  end.

(** Python's [range(n)] *)
Definition range (n : Z) : list Z := map Z.of_nat (seq 0 (Z.to_nat n)).

(** Python's [x / n] for a float [x] and an integer [n] *)
Definition py_div (x : Q) (n : Z) : M Q :=
  if n =? 0 then raise ZeroDivisionError else ret (x / inject_Z n)%Q.

(** ** The collaborators of the driver *)

(** The integer seeds that [np.random.seed] accepts. *)
Definition seed_accepted (s : Z) : bool := (0 <=? s) && (s <=? 4294967295).

(** [np.random.seed(seed)]: the generator is reset when the seed is
    accepted, and left as it was when [ValueError] is raised. *)
Definition np_random_seed (s : Z) : M unit :=
  emit (CallSeed s) ;;
  if seed_accepted s then set_rng (seed_generator s) else raise ValueError.

Definition product (ds : list Z) : Z := fold_right Z.mul 1 ds.

(** Modelled from the spec: the dimensions that section 4.1 accepts: every
    entry is at least 1 and the product does not exceed what site indices
    can address. *)
Definition dimensions_accepted (dims : list Z) : bool :=
  negb (existsb (fun d => d <? 1) dims) && (product dims <=? max_sites).

(** Modelled from the spec: the constructor of [spyns.lattice.BinaryLattice]
    (section 4.1), which is not among the sources.  It fails with
    [InvalidDimensionsError] on dimensions that are not accepted and with
    [NeighborhoodCoefficientMismatchError] unless there are as many offsets
    as coefficients; [number_sites] is the product of the dimensions. *)
Definition BinaryLattice_init (dims : list Z) (nbh : list Offset)
    (coefs : list Q) : M BinaryLattice :=
  emit CallBinaryLattice ;;
  if negb (dimensions_accepted dims) then raise InvalidDimensionsError
  else if negb (Nat.eqb (length nbh) (length coefs))
  then raise NeighborhoodCoefficientMismatchError
  else ret {| lattice_dimensions := dims;
              number_sites := product dims;
              neighbor_table := neighbors_of dims nbh;
              lattice_coefficients := coefs |}.

(** Modelled from the spec: [BinaryLattice.sample_random_state] (section
    4.2), which is not among the sources.  It draws from the shared random
    source. *)
Definition sample_random_state (lattice : BinaryLattice) : M SpinState :=
  emit CallSampleRandomState ;;
  g <- get_rng ;;
  let (s, g') := draw_state lattice g in
  set_rng g' ;;
  ret s.

Definition empty_accumulator : Accumulator := {| total := 0%Q; count := 0 |}.

Definition empty_estimators : Estimators :=
  {| energy_acc := empty_accumulator;
     magnetization_acc := empty_accumulator;
     magnetization_even_sites_acc := empty_accumulator;
     magnetization_odd_sites_acc := empty_accumulator |}.

(** Modelled from the spec: [spyns.data.setup_containers], which is not
    among the sources.  It creates the data object of the run: the
    parameters, the initial state, accumulators with nothing recorded and an
    empty history store (section 3). *)
Definition setup_containers (p : SimulationParameters) (s : SpinState)
    : M unit :=
  emit CallSetupContainers ;;
  set_data {| parameters := p; state := s;
              estimators := empty_estimators; trace := [] |}.

(** Modelled from the spec: [record(observable_name, value)] of section 4.5,
    which is not among the sources: add the value to the running total and
    increment the sample count. *)
Definition record_sample (a : Accumulator) (v : Q) : Accumulator :=
  {| total := (total a + v)%Q; count := count a + 1 |}.

Definition accumulator_of (o : Observable) (e : Estimators) : Accumulator :=
  match o with
  | Energy => energy_acc e
  | Magnetization => magnetization_acc e
  | MagnetizationEvenSites => magnetization_even_sites_acc e
  | MagnetizationOddSites => magnetization_odd_sites_acc e
  end.

(** Modelled from the spec: [moment(observable_name)] of section 4.5, which
    is not among the sources: total divided by count, failing with
    [NoSamplesRecordedError] when the count is zero.  The driver reads it as
    the attributes [energy_1st_moment], [magnetization_1st_moment],
    [magnetization_even_sites_1st_moment] and
    [magnetization_odd_sites_1st_moment] of [data.estimators]. *)
Definition moment_of (a : Accumulator) : Result Q :=
  if count a =? 0 then Err NoSamplesRecordedError
  else Ok (total a / inject_Z (count a))%Q.

Definition moment (o : Observable) : M Q :=
  d <- get_data ;;
  match moment_of (accumulator_of o (estimators d)) with
  | Ok q => ret q
  | Err e => raise e
  end.

(** Modelled from the spec: the accumulation step of section 4.4: the four
    observables of the whole lattice, each appended to its accumulator. *)
Definition accumulate (lattice : BinaryLattice) (s : SpinState)
    (e : Estimators) : Estimators :=
  {| energy_acc := record_sample (energy_acc e) (total_energy lattice s);
     magnetization_acc :=
       record_sample (magnetization_acc e) (magnetization s);
     magnetization_even_sites_acc :=
       record_sample (magnetization_even_sites_acc e)
                     (sublattice_magnetization lattice s true);
     magnetization_odd_sites_acc :=
       record_sample (magnetization_odd_sites_acc e)
                     (sublattice_magnetization lattice s false) |}.

(** Modelled from the spec: [spyns.sampling.sweep_grid] (section 4.4), which
    is not among the sources.  The temperature is checked at the start of
    the sweep, the state must have one spin per site (section 4.3), the
    trial updates mutate the state in place, and the observables are
    recorded once unless this is an equilibration sweep. *)
Definition sweep_grid (lattice : BinaryLattice) (sweep_index : Z)
    (equilibration_run : bool) : M unit :=
  emit (CallSweepGrid sweep_index equilibration_run) ;;
  d <- get_data ;;
  if Qle_bool (temperature (parameters d)) 0
  then raise InvalidTemperatureError
  else if negb (Z.of_nat (length (state d)) =? number_sites lattice)
  then raise StateSizeMismatchError
  else
    g <- get_rng ;;
    let (s, g') :=
      trial_updates lattice (temperature (parameters d)) (state d) g in
    set_rng g' ;;
    set_data {| parameters := parameters d; state := s;
                estimators :=
                  if equilibration_run then estimators d
                  else accumulate lattice s (estimators d);
                trace := trace d |}.

(** Modelled from the spec: [spyns.model.ising_save_full_state] (section
    4.6), which is not among the sources: a copy of the current spin state
    is added to the history store of the data object. *)
Definition ising_save_full_state (lattice : BinaryLattice) : M unit :=
  emit CallSaveFullState ;;
  d <- get_data ;;
  set_data {| parameters := parameters d; state := state d;
              estimators := estimators d;
              trace := trace d ++ [state d] |}.

(** Modelled from the spec: [spyns.data.write_trace_to_disk], which is not
    among the sources: the history store is handed to the persistence
    service; the data object is only read (section 3). *)
Definition write_trace_to_disk : M unit :=
  emit CallWriteTrace ;;
  d <- get_data ;;
  append_disk (trace d).

(** [print(f"label = {value}")] *)
Definition print (label : string) (value : Q) : M unit :=
  emit (CallPrint label value).

(** ** The driver, from [run.py] *)

Definition pre_simulation (lattice : BinaryLattice) : M unit :=
  d <- get_data ;;
  for_each (range (equilibration_sweeps (parameters d)))
    (fun sweep_index => sweep_grid lattice sweep_index true).

Definition main_simulation (lattice : BinaryLattice) : M unit :=
  ising_save_full_state lattice ;;
  d <- get_data ;;
  for_each (range (sweeps (parameters d)))
    (fun sweep_index => sweep_grid lattice sweep_index false).

Definition post_simulation (lattice : BinaryLattice) : M unit :=
  write_trace_to_disk ;;
  e <- moment Energy ;;
  average_energy <- py_div e (number_sites lattice) ;;
  m <- moment Magnetization ;;
  fm_order_parameter <- py_div m (number_sites lattice) ;;
  me <- moment MagnetizationEvenSites ;;
  mo <- moment MagnetizationOddSites ;;
  afm_order_parameter <- py_div (me - mo)%Q (number_sites lattice) ;;
  print "Average energy" average_energy ;;
  print "FM order parameter" fm_order_parameter ;;
  print "AFM order parameter" afm_order_parameter.

Definition simulation (p : SimulationParameters) : M SimulationData :=
  np_random_seed (seed p) ;;
  lattice <- BinaryLattice_init (dimensions p) (neighborhood p)
               (interaction_coefficients p) ;;
  s <- sample_random_state lattice ;;
  setup_containers p s ;;
  pre_simulation lattice ;;
  main_simulation lattice ;;
  post_simulation lattice ;;
  get_data.

(** ** Observations on worlds and call histories *)

Definition is_sweep (equilibration_run : bool) (c : Call) : list Z :=
  match c with
  | CallSweepGrid i b => if Bool.eqb b equilibration_run then [i] else []
  | _ => []
  end.

(** The sweep indices passed to [sweep_grid] in one phase, in call order. *)
Definition sweep_indices (equilibration_run : bool) (cs : list Call)
    : list Z :=
  flat_map (is_sweep equilibration_run) cs.

Definition is_seed (c : Call) : bool :=
  match c with CallSeed _ => true | _ => false end.


Definition sweep_call (equilibration_run : bool) (i : Z) : Call :=
  CallSweepGrid i equilibration_run.

(** Total divided by count, as a plain expression. *)
Definition mean (a : Accumulator) : Q := (total a / inject_Z (count a))%Q.

(** What [post_simulation] does when every moment is available. *)
Definition report_calls (lattice : BinaryLattice) (d : SimulationData)
    : list Call :=
  let e := estimators d in
  let n := inject_Z (number_sites lattice) in
  [ CallWriteTrace;
    CallPrint "Average energy" (mean (energy_acc e) / n)%Q;
    CallPrint "FM order parameter" (mean (magnetization_acc e) / n)%Q;
    CallPrint "AFM order parameter"
      ((mean (magnetization_even_sites_acc e)
        - mean (magnetization_odd_sites_acc e)) / n)%Q ].

(** The lattice that [simulation] builds from valid parameters. *)
Definition lattice_of (p : SimulationParameters) : BinaryLattice :=
  {| lattice_dimensions := dimensions p;
     number_sites := product (dimensions p);
     neighbor_table := neighbors_of (dimensions p) (neighborhood p);
     lattice_coefficients := interaction_coefficients p |}.

Definition valid_seed (p : SimulationParameters) : bool :=
  seed_accepted (seed p).

Definition valid_lattice (p : SimulationParameters) : bool :=
  dimensions_accepted (dimensions p)
  && Nat.eqb (length (neighborhood p)) (length (interaction_coefficients p)).

Definition startup_calls (p : SimulationParameters) : list Call :=
  [CallSeed (seed p); CallBinaryLattice; CallSampleRandomState;
   CallSetupContainers].

(** The calls of a run up to and including the last production sweep. *)
Definition sweep_schedule (p : SimulationParameters) : list Call :=
  startup_calls p
  ++ map (sweep_call true) (range (equilibration_sweeps p))
  ++ [CallSaveFullState]
  ++ map (sweep_call false) (range (sweeps p)).

(** A world in which a sweep cannot fail. *)
Definition sweepable (lattice : BinaryLattice) (w : World) : Prop :=
  Qle_bool (temperature (parameters (data w))) 0 = false
  /\ Z.of_nat (length (state (data w))) = number_sites lattice.

(** The world right after the checkpoint. *)
Definition checkpointed (w : World) : World :=
  {| np_random := np_random w;
     data := {| parameters := parameters (data w);
                state := state (data w);
                estimators := estimators (data w);
                trace := trace (data w) ++ [state (data w)] |};
     disk := disk w;
     calls := calls w ++ [CallSaveFullState] |}.

(** The world right after the trace has been handed to the disk. *)
Definition written (w : World) : World :=
  {| np_random := np_random w;
     data := data w;
     disk := disk w ++ [trace (data w)];
     calls := calls w ++ [CallWriteTrace] |}.

(** Every moment of the report is available and the division is defined. *)
Definition reportable (lattice : BinaryLattice) (d : SimulationData) : bool :=
  negb (count (energy_acc (estimators d)) =? 0)
  && negb (count (magnetization_acc (estimators d)) =? 0)
  && negb (count (magnetization_even_sites_acc (estimators d)) =? 0)
  && negb (count (magnetization_odd_sites_acc (estimators d)) =? 0)
  && negb (number_sites lattice =? 0).

(** The world in which the sweeps start: seeded, with the lattice built, the
    initial state drawn and the data object created. *)
Definition started (p : SimulationParameters) (w : World) : World :=
  let sg := draw_state (lattice_of p) (seed_generator (seed p)) in
  {| np_random := snd sg;
     data := {| parameters := p; state := fst sg;
                estimators := empty_estimators; trace := [] |};
     disk := disk w;
     calls := calls w ++ startup_calls p |}.

(** The world in which the seed has been refused. *)
Definition unseeded (p : SimulationParameters) (w : World) : World :=
  {| np_random := np_random w;
     data := data w;
     disk := disk w;
     calls := calls w ++ [CallSeed (seed p)] |}.

(** The world in which lattice construction has failed. *)
Definition rejected (p : SimulationParameters) (w : World) : World :=
  {| np_random := seed_generator (seed p);
     data := data w;
     disk := disk w;
     calls := calls w ++ [CallSeed (seed p); CallBinaryLattice] |}.

(** The three phases that follow the start-up, as [simulation] chains them. *)
Definition phases (lattice : BinaryLattice) : M SimulationData :=
  bind (pre_simulation lattice) (fun _ =>
  bind (main_simulation lattice) (fun _ =>
  bind (post_simulation lattice) (fun _ => get_data))).

(** The calls of the three phases of a run that reports on [d]. *)
Definition phase_calls (p : SimulationParameters) (lattice : BinaryLattice)
    (d : SimulationData) : list Call :=
  map (sweep_call true) (range (equilibration_sweeps p))
  ++ [CallSaveFullState]
  ++ map (sweep_call false) (range (sweeps p))
  ++ report_calls lattice d.

(** The error raised by the constructor of an invalid lattice. *)
Definition lattice_error (p : SimulationParameters) : Exn :=
  if dimensions_accepted (dimensions p)
  then NeighborhoodCoefficientMismatchError
  else InvalidDimensionsError.

(** The labelled values printed, in order. *)
Definition printed (cs : list Call) : list (string * Q) :=
  flat_map (fun c => match c with
                     | CallPrint l v => [(l, v)]
                     | _ => []
                     end) cs.

(** Two worlds that differ at most in what is on disk and in the calls made
    so far. *)
Definition same_process (w1 w2 : World) : Prop :=
  np_random w1 = np_random w2 /\ data w1 = data w2.

(** The world right after a report that has succeeded. *)
Definition reported (lattice : BinaryLattice) (w : World) : World :=
  {| np_random := np_random w;
     data := data w;
     disk := disk w ++ [trace (data w)];
     calls := calls w ++ report_calls lattice (data w) |}.


Definition is_production (c : Call) : bool :=
  match c with CallSweepGrid _ false => true | _ => false end.

End Driver.

(** ** A concrete kernel

    A kernel on which the driver can be run, after sections 4.1 to 4.4 of the
    specification: a linear congruential generator as the random source,
    row-major site indices with periodic neighbours, the energy and the
    magnetizations of a state, and the Metropolis trial updates.  The
    Boltzmann factor is a rational stand-in for the exponential. *)

Definition lcg_next (g : Z) : Z := (g * 1103515245 + 12345) mod 2147483648.

Definition lcg_spin (g : Z) : Z := if Z.even (g / 65536) then 1 else -1.

(** A sample of the unit interval. *)
Definition lcg_uniform (g : Z) : Q := (inject_Z g / 2147483648)%Q.

(** Stands for [exp (- x)] on [x >= 0]. *)
Definition boltzmann (x : Q) : Q := (1 / (1 + x + x * x / 2))%Q.

Fixpoint lcg_spins (n : nat) (g : Z) : SpinState * Z :=
  match n with
  | O => ([], g)
  | S n' =>
      let g1 := lcg_next g in
      let (s, g2) := lcg_spins n' g1 in
      (lcg_spin g1 :: s, g2)
  end.

(** The coordinates of a site, the last axis varying fastest. *)
Fixpoint decode (dims : list Z) (i : Z) : list Z :=
  match dims with
  | [] => []
  | _ :: rest => i / product rest :: decode rest (i mod product rest)
  end.

Fixpoint encode (dims coords : list Z) : Z :=
  match dims, coords with
  | _ :: rest, c :: cs => c * product rest + encode rest cs
  | _, _ => 0
  end.

(** The coordinates moved by an offset, wrapping around every axis. *)
Fixpoint shift (dims coords offset : list Z) : list Z :=
  match dims, coords, offset with
  | d :: ds, c :: cs, o :: os => (c + o) mod d :: shift ds cs os
  | _, _, _ => []
  end.

Definition periodic_neighbors (dims : list Z) (nbh : list Offset)
    : list (list Z) :=
  map (fun i => map (fun o => encode dims (shift dims (decode dims i) o)) nbh)
      (range (product dims)).

Definition even_site (dims : list Z) (i : Z) : bool :=
  Z.even (fold_right Z.add 0 (decode dims i)).

Definition spin_at (s : SpinState) (i : Z) : Z := nth (Z.to_nat i) s 0.

Definition qsum (qs : list Q) : Q := fold_right Qplus 0%Q qs.

Definition local_energy (l : BinaryLattice) (s : SpinState) (i : Z) : Q :=
  (- inject_Z (spin_at s i)
   * qsum (map (fun cj => fst cj * inject_Z (spin_at s (snd cj)))
             (combine (lattice_coefficients l)
                      (nth (Z.to_nat i) (neighbor_table l) []))))%Q.

Definition lattice_energy (l : BinaryLattice) (s : SpinState) : Q :=
  (qsum (map (local_energy l s) (range (Z.of_nat (length s)))) / 2)%Q.

Definition spin_sum (s : SpinState) : Q := inject_Z (fold_right Z.add 0 s).

Definition sublattice_sum (l : BinaryLattice) (s : SpinState)
    (even_sites : bool) : Q :=
  inject_Z
    (fold_right Z.add 0
       (map (fun i =>
               if Bool.eqb (even_site (lattice_dimensions l) i) even_sites
               then spin_at s i else 0)
            (range (Z.of_nat (length s))))).

Fixpoint flip_at (s : SpinState) (i : nat) : SpinState :=
  match s, i with
  | [], _ => []
  | x :: r, O => - x :: r
  | x :: r, S k => x :: flip_at r k
  end.

(** One trial update: the flip is accepted when it does not raise the
    energy, and otherwise when a fresh sample falls below the Boltzmann
    factor. *)
Definition metropolis_trial (l : BinaryLattice) (t : Q)
    (sg : SpinState * Z) (i : Z) : SpinState * Z :=
  let delta_E := (2 * local_energy l (fst sg) i)%Q in
  if Qle_bool delta_E 0 then (flip_at (fst sg) (Z.to_nat i), snd sg)
  else
    let g1 := lcg_next (snd sg) in
    if Qle_bool (boltzmann (delta_E / t)) (lcg_uniform g1) then (fst sg, g1)
    else (flip_at (fst sg) (Z.to_nat i), g1).

Definition metropolis_sweep (l : BinaryLattice) (t : Q) (s : SpinState)
    (g : Z) : SpinState * Z :=
  fold_left (metropolis_trial l t) (range (number_sites l)) (s, g).

Lemma lcg_spins_length n g : length (fst (lcg_spins n g)) = n.
Proof.
  revert g; induction n as [|n IH]; intros g; simpl; auto.
  specialize (IH (lcg_next g)).
  destruct (lcg_spins n (lcg_next g)); simpl in *; congruence.
Qed.

Lemma flip_at_length s i : length (flip_at s i) = length s.
Proof.
  revert i; induction s as [|x s IH]; intros [|i]; simpl; auto.
Qed.

Lemma metropolis_trial_length l t sg i :
  length (fst (metropolis_trial l t sg i)) = length (fst sg).
Proof.
  unfold metropolis_trial.
  destruct (Qle_bool _ 0); simpl; [apply flip_at_length|].
  destruct (Qle_bool _ _); simpl; [reflexivity | apply flip_at_length].
Qed.

Lemma metropolis_sweep_length l t s g :
  length (fst (metropolis_sweep l t s g)) = length s.
Proof.
  unfold metropolis_sweep.
  change s with (fst (s, g)) at 2.
  generalize (s, g) as sg.
  induction (range (number_sites l)) as [|i sites IH]; intros sg; simpl; auto.
  rewrite IH; apply metropolis_trial_length.
Qed.

Lemma lcg_draw_state_length (l : BinaryLattice) (g : Z) :
  0 <= number_sites l ->
  Z.of_nat (length (fst (lcg_spins (Z.to_nat (number_sites l)) g)))
  = number_sites l.
Proof. intros H; rewrite lcg_spins_length; apply Z2Nat.id, H. Qed.

#[local] Instance reference_core : Core := {|
  Rng := Z;
  seed_generator := fun s => s mod 2147483648;
  max_sites := 9223372036854775807;
  neighbors_of := periodic_neighbors;
  draw_state := fun l g => lcg_spins (Z.to_nat (number_sites l)) g;
  trial_updates := metropolis_sweep;
  total_energy := lattice_energy;
  magnetization := spin_sum;
  sublattice_magnetization := sublattice_sum;
  draw_state_length := lcg_draw_state_length;
  trial_updates_length := metropolis_sweep_length
|}.

(** A 4 x 4 lattice with coupling 1 to the four nearest neighbours,
    temperature 2, no equilibration sweep and one production sweep. *)
Definition example_parameters : SimulationParameters :=
  {| seed := 42;
     dimensions := [4; 4];
     neighborhood := [[-1; 0]; [1; 0]; [0; -1]; [0; 1]];
     interaction_coefficients := [1%Q; 1%Q; 1%Q; 1%Q];
     temperature := 2%Q;
     equilibration_sweeps := 0;
     sweeps := 1 |}.

(** A ring of four sites with two equilibration and three production
    sweeps. *)
Definition long_parameters : SimulationParameters :=
  {| seed := 7;
     dimensions := [4];
     neighborhood := [[-1]; [1]];
     interaction_coefficients := [1%Q; 1%Q];
     temperature := 2%Q;
     equilibration_sweeps := 2;
     sweeps := 3 |}.

(** The same ring with two equilibration sweeps and no production sweep. *)
Definition idle_parameters : SimulationParameters :=
  {| seed := 7;
     dimensions := [4];
     neighborhood := [[-1]; [1]];
     interaction_coefficients := [1%Q; 1%Q];
     temperature := 2%Q;
     equilibration_sweeps := 2;
     sweeps := 0 |}.

(** A lattice with an axis of length zero. *)
Definition invalid_parameters : SimulationParameters :=
  {| seed := 3;
     dimensions := [4; 0];
     neighborhood := [[-1; 0]; [1; 0]];
     interaction_coefficients := [1%Q; 1%Q];
     temperature := 2%Q;
     equilibration_sweeps := 1;
     sweeps := 1 |}.

(** The ring of [long_parameters] with a seed that [np.random.seed]
    refuses. *)
Definition unseedable_parameters : SimulationParameters :=
  {| seed := -1;
     dimensions := [4];
     neighborhood := [[-1]; [1]];
     interaction_coefficients := [1%Q; 1%Q];
     temperature := 2%Q;
     equilibration_sweeps := 2;
     sweeps := 3 |}.

(** A lattice of 2^32 x 2^32 sites, more than can be addressed. *)
Definition oversized_parameters : SimulationParameters :=
  {| seed := 3;
     dimensions := [4294967296; 4294967296];
     neighborhood := [[-1; 0]; [1; 0]];
     interaction_coefficients := [1%Q; 1%Q];
     temperature := 2%Q;
     equilibration_sweeps := 1;
     sweeps := 1 |}.

Definition blank_data : SimulationData :=
  {| parameters := idle_parameters; state := [];
     estimators := empty_estimators; trace := [] |}.

(** A process that has not run anything yet. *)
Definition fresh_world : World :=
  {| np_random := 0; data := blank_data; disk := []; calls := [] |}.

(** A process in which something else has already run. *)
Definition used_world : World :=
  {| np_random := 99; data := blank_data; disk := [[[1; -1]]];
     calls := [CallSeed 1; CallPrint "noise" 0%Q] |}.

(** ** Reasoning about computations *)

Section DriverFacts.

Context {core : Core}.

Ltac run_monad :=
  unfold bind, ret, raise, emit, get_data, set_data, get_rng, set_rng,
    append_disk in *; simpl in *.

Lemma for_each_calls {A : Type} (body : A -> M unit) (c : A -> Call) :
  (forall i w, calls (fst (body i w)) = calls w ++ [c i]) ->
  forall xs w,
    exists done rest,
      xs = done ++ rest
      /\ calls (fst (for_each xs body w)) = calls w ++ map c done
      /\ (snd (for_each xs body w) = Ok tt -> rest = []).
Proof.
  intros Hbody xs; induction xs as [|x xs IH]; intros w.
  - exists [], []; simpl; rewrite app_nil_r; auto.
  - simpl; unfold bind.
    specialize (Hbody x w).
    destruct (body x w) as [w1 [[]|e]] eqn:Hx; simpl in Hbody.
    + destruct (IH w1) as (done & rest & -> & Hc & Hok).
      exists (x :: done), rest; repeat split; auto.
      rewrite Hc, Hbody, <- app_assoc; reflexivity.
    + exists [x], xs; repeat split; auto.
      simpl; discriminate.
Qed.

Lemma for_each_invariant {A : Type} (body : A -> M unit)
    (I : World -> Prop) :
  (forall i w, I w -> I (fst (body i w))) ->
  forall xs w, I w -> I (fst (for_each xs body w)).
Proof.
  intros Hbody xs; induction xs as [|x xs IH]; intros w Hw; simpl; auto.
  unfold bind.
  specialize (Hbody x w Hw).
  destruct (body x w) as [w1 [[]|e]]; simpl in *; auto.
Qed.

Lemma for_each_total {A : Type} (body : A -> M unit) (I : World -> Prop) :
  (forall i w, I w -> I (fst (body i w)) /\ snd (body i w) = Ok tt) ->
  forall xs w, I w -> snd (for_each xs body w) = Ok tt.
Proof.
  intros Hbody xs; induction xs as [|x xs IH]; intros w Hw; simpl; auto.
  unfold bind.
  destruct (Hbody x w Hw) as [Hi Hr].
  destruct (body x w) as [w1 r]; simpl in *; subst r; auto.
Qed.

Lemma for_each_counts {A : Type} (body : A -> M unit) (f : World -> Z) :
  (forall i w w', body i w = (w', Ok tt) -> f w' = f w + 1) ->
  forall xs w w',
    for_each xs body w = (w', Ok tt) ->
    f w' = f w + Z.of_nat (length xs).
Proof.
  intros Hbody xs; induction xs as [|x xs IH]; intros w w' H.
  - simpl in H; unfold ret in H; inversion H; subst; simpl; lia.
  - simpl in H; unfold bind in H.
    destruct (body x w) as [w1 [[]|e]] eqn:Hx; [|discriminate].
    rewrite (IH _ _ H), (Hbody _ _ _ Hx).
    simpl length; lia.
Qed.

(** *** [sweep_grid] *)

Lemma sweep_grid_calls lattice i b w :
  calls (fst (sweep_grid lattice i b w)) = calls w ++ [CallSweepGrid i b].
Proof.
  unfold sweep_grid; run_monad.
  destruct (Qle_bool _ _); simpl; auto.
  destruct (negb _); simpl; auto.
  destruct (trial_updates _ _ _ _); reflexivity.
Qed.

Lemma sweep_grid_frame lattice i b w :
  parameters (data (fst (sweep_grid lattice i b w))) = parameters (data w)
  /\ trace (data (fst (sweep_grid lattice i b w))) = trace (data w)
  /\ disk (fst (sweep_grid lattice i b w)) = disk w.
Proof.
  unfold sweep_grid; run_monad.
  destruct (Qle_bool _ _); simpl; auto.
  destruct (negb _); simpl; auto.
  destruct (trial_updates _ _ _ _); simpl; auto.
Qed.

Lemma sweep_grid_equilibration lattice i w :
  estimators (data (fst (sweep_grid lattice i true w)))
  = estimators (data w).
Proof.
  unfold sweep_grid; run_monad.
  destruct (Qle_bool _ _); simpl; auto.
  destruct (negb _); simpl; auto.
  destruct (trial_updates _ _ _ _); simpl; auto.
Qed.

Lemma sweep_grid_ok lattice i b w :
  sweepable lattice w ->
  sweep_grid lattice i b w =
    (let sg := trial_updates lattice (temperature (parameters (data w)))
                 (state (data w)) (np_random w) in
     {| np_random := snd sg;
        data := {| parameters := parameters (data w);
                   state := fst sg;
                   estimators :=
                     if b then estimators (data w)
                     else accumulate lattice (fst sg) (estimators (data w));
                   trace := trace (data w) |};
        disk := disk w;
        calls := calls w ++ [CallSweepGrid i b] |}, Ok tt).
Proof.
  intros [HT Hlen].
  unfold sweep_grid; run_monad.
  rewrite HT, Hlen, Z.eqb_refl; simpl.
  destruct (trial_updates _ _ _ _); reflexivity.
Qed.

Lemma sweep_grid_sweepable lattice i b w :
  sweepable lattice w ->
  sweepable lattice (fst (sweep_grid lattice i b w))
  /\ snd (sweep_grid lattice i b w) = Ok tt.
Proof.
  intros H; rewrite (sweep_grid_ok _ _ _ _ H); destruct H as [HT Hlen].
  split; [split|]; simpl; auto.
  rewrite trial_updates_length; exact Hlen.
Qed.

Lemma sweep_grid_production_count lattice i w w' (o : Observable) :
  sweep_grid lattice i false w = (w', Ok tt) ->
  count (accumulator_of o (estimators (data w')))
  = count (accumulator_of o (estimators (data w))) + 1.
Proof.
  unfold sweep_grid; run_monad.
  destruct (Qle_bool _ _); simpl; [discriminate|].
  destruct (negb _); simpl; [discriminate|].
  destruct (trial_updates _ _ _ _); intros H; inversion H; subst; simpl.
  destruct o; reflexivity.
Qed.

(** *** The phases of the driver *)

Lemma pre_simulation_unfold lattice w :
  pre_simulation lattice w =
  for_each (range (equilibration_sweeps (parameters (data w))))
    (fun sweep_index => sweep_grid lattice sweep_index true) w.
Proof. reflexivity. Qed.

Lemma pre_simulation_calls lattice w :
  exists done rest,
    range (equilibration_sweeps (parameters (data w))) = done ++ rest
    /\ calls (fst (pre_simulation lattice w))
       = calls w ++ map (sweep_call true) done
    /\ (snd (pre_simulation lattice w) = Ok tt -> rest = []).
Proof.
  rewrite pre_simulation_unfold.
  apply for_each_calls; intros; apply sweep_grid_calls.
Qed.

Lemma pre_simulation_frame lattice w :
  parameters (data (fst (pre_simulation lattice w))) = parameters (data w)
  /\ trace (data (fst (pre_simulation lattice w))) = trace (data w)
  /\ disk (fst (pre_simulation lattice w)) = disk w
  /\ estimators (data (fst (pre_simulation lattice w)))
     = estimators (data w).
Proof.
  rewrite pre_simulation_unfold.
  apply (for_each_invariant _
    (fun w' => parameters (data w') = parameters (data w)
               /\ trace (data w') = trace (data w)
               /\ disk w' = disk w
               /\ estimators (data w') = estimators (data w))); auto.
  intros i w0 (Hp & Ht & Hd & He).
  destruct (sweep_grid_frame lattice i true w0) as (-> & -> & ->).
  rewrite sweep_grid_equilibration; auto.
Qed.

Lemma pre_simulation_sweepable lattice w :
  sweepable lattice w ->
  sweepable lattice (fst (pre_simulation lattice w))
  /\ snd (pre_simulation lattice w) = Ok tt.
Proof.
  intros H; rewrite pre_simulation_unfold; split.
  - apply (for_each_invariant _ (sweepable lattice)); auto.
    intros; apply sweep_grid_sweepable; auto.
  - apply (for_each_total _ (sweepable lattice)); auto.
    intros; apply sweep_grid_sweepable; auto.
Qed.

Lemma main_simulation_unfold lattice w :
  main_simulation lattice w =
  for_each (range (sweeps (parameters (data w))))
    (fun sweep_index => sweep_grid lattice sweep_index false)
    (checkpointed w).
Proof. reflexivity. Qed.

Lemma main_simulation_calls lattice w :
  exists done rest,
    range (sweeps (parameters (data w))) = done ++ rest
    /\ calls (fst (main_simulation lattice w))
       = calls w ++ [CallSaveFullState] ++ map (sweep_call false) done
    /\ (snd (main_simulation lattice w) = Ok tt -> rest = []).
Proof.
  rewrite main_simulation_unfold.
  destruct (for_each_calls
              (fun sweep_index => sweep_grid lattice sweep_index false)
              (sweep_call false)
              (fun i w0 => sweep_grid_calls lattice i false w0)
              (range (sweeps (parameters (data w)))) (checkpointed w))
    as (done & rest & Hr & Hc & Hok).
  exists done, rest; repeat split; auto.
  rewrite Hc; simpl; rewrite <- app_assoc; reflexivity.
Qed.

Lemma main_simulation_frame lattice w :
  parameters (data (fst (main_simulation lattice w))) = parameters (data w)
  /\ trace (data (fst (main_simulation lattice w)))
     = trace (data w) ++ [state (data w)]
  /\ disk (fst (main_simulation lattice w)) = disk w.
Proof.
  rewrite main_simulation_unfold.
  apply (for_each_invariant _
    (fun w' => parameters (data w') = parameters (data w)
               /\ trace (data w') = trace (data w) ++ [state (data w)]
               /\ disk w' = disk w)); [|simpl; auto].
  intros i w0 (Hp & Ht & Hd).
  destruct (sweep_grid_frame lattice i false w0) as (-> & -> & ->); auto.
Qed.

Lemma main_simulation_sweepable lattice w :
  sweepable lattice w ->
  sweepable lattice (fst (main_simulation lattice w))
  /\ snd (main_simulation lattice w) = Ok tt.
Proof.
  intros H; rewrite main_simulation_unfold.
  assert (Hc : sweepable lattice (checkpointed w)) by exact H.
  split.
  - apply (for_each_invariant _ (sweepable lattice)); auto.
    intros; apply sweep_grid_sweepable; auto.
  - apply (for_each_total _ (sweepable lattice)); auto.
    intros; apply sweep_grid_sweepable; auto.
Qed.

Lemma main_simulation_count lattice w w' (o : Observable) :
  main_simulation lattice w = (w', Ok tt) ->
  count (accumulator_of o (estimators (data w')))
  = count (accumulator_of o (estimators (data w)))
    + Z.of_nat (length (range (sweeps (parameters (data w))))).
Proof.
  rewrite main_simulation_unfold; intros H.
  apply (for_each_counts _
           (fun w0 => count (accumulator_of o (estimators (data w0))))
           (fun i w0 w1 => sweep_grid_production_count lattice i w0 w1 o))
    in H.
  exact H.
Qed.

Lemma post_simulation_reportable lattice w :
  reportable lattice (data w) = true ->
  post_simulation lattice w =
    ({| np_random := np_random w;
        data := data w;
        disk := disk w ++ [trace (data w)];
        calls := calls w ++ report_calls lattice (data w) |}, Ok tt).
Proof.
  unfold reportable; intros H.
  repeat (apply andb_prop in H; destruct H as [H ?]).
  unfold post_simulation, write_trace_to_disk, moment, moment_of, py_div,
    print, report_calls, mean; run_monad.
  repeat match goal with
         | Hn : negb (?x =? 0) = true |- _ =>
             apply negb_true_iff in Hn; rewrite Hn; simpl
         end.
  repeat rewrite <- app_assoc; reflexivity.
Qed.

Lemma post_simulation_not_reportable lattice w :
  reportable lattice (data w) = false ->
  exists e,
    post_simulation lattice w = (written w, Err e)
    /\ (e = NoSamplesRecordedError
        \/ e = ZeroDivisionError /\ number_sites lattice = 0).
Proof.
  unfold reportable, written; intros H.
  unfold post_simulation, write_trace_to_disk, moment, moment_of, py_div,
    print; run_monad.
  destruct (count (energy_acc (estimators (data w))) =? 0); simpl;
    [eexists; split; [reflexivity | auto]|].
  destruct (number_sites lattice =? 0) eqn:Hn; simpl;
    [apply Z.eqb_eq in Hn; eexists; split; [reflexivity | auto]|].
  destruct (count (magnetization_acc (estimators (data w))) =? 0); simpl;
    [eexists; split; [reflexivity | auto]|].
  destruct (count (magnetization_even_sites_acc (estimators (data w))) =? 0);
    simpl; [eexists; split; [reflexivity | auto]|].
  destruct (count (magnetization_odd_sites_acc (estimators (data w))) =? 0);
    simpl; [eexists; split; [reflexivity | auto]|].
  discriminate.
Qed.

Lemma post_simulation_no_energy_samples lattice w :
  count (energy_acc (estimators (data w))) = 0 ->
  post_simulation lattice w = (written w, Err NoSamplesRecordedError).
Proof.
  intros H.
  unfold post_simulation, write_trace_to_disk, moment, moment_of, written;
    run_monad.
  rewrite H; reflexivity.
Qed.

Lemma post_simulation_frame lattice w :
  data (fst (post_simulation lattice w)) = data w
  /\ np_random (fst (post_simulation lattice w)) = np_random w
  /\ disk (fst (post_simulation lattice w)) = disk w ++ [trace (data w)].
Proof.
  destruct (reportable lattice (data w)) eqn:H.
  - rewrite (post_simulation_reportable _ _ H); simpl; auto.
  - destruct (post_simulation_not_reportable _ _ H) as (e & -> & _).
    simpl; auto.
Qed.

Lemma post_simulation_calls lattice w :
  exists done rest,
    report_calls lattice (data w) = (CallWriteTrace :: done) ++ rest
    /\ calls (fst (post_simulation lattice w))
       = calls w ++ CallWriteTrace :: done
    /\ (snd (post_simulation lattice w) = Ok tt -> rest = []).
Proof.
  destruct (reportable lattice (data w)) eqn:H.
  - rewrite (post_simulation_reportable _ _ H); simpl.
    eexists; exists []; rewrite app_nil_r.
    split; [reflexivity|]; split; [reflexivity | auto].
  - destruct (post_simulation_not_reportable _ _ H) as (e & -> & _); simpl.
    exists []; eexists.
    split; [reflexivity|]; split; [reflexivity | discriminate].
Qed.

Lemma post_simulation_ok lattice w :
  snd (post_simulation lattice w) = Ok tt ->
  reportable lattice (data w) = true.
Proof.
  destruct (reportable lattice (data w)) eqn:H; auto.
  destruct (post_simulation_not_reportable _ _ H) as (e & -> & _).
  discriminate.
Qed.

(** *** The whole run *)

Lemma simulation_unseeded p w :
  valid_seed p = false ->
  simulation p w = (unseeded p w, Err ValueError).
Proof.
  unfold valid_seed; intros H.
  unfold simulation, np_random_seed, unseeded.
  unfold bind at 1 2, emit; simpl.
  rewrite H; reflexivity.
Qed.

Lemma simulation_valid p w :
  valid_seed p = true ->
  valid_lattice p = true ->
  simulation p w = phases (lattice_of p) (started p w).
Proof.
  unfold valid_seed, valid_lattice; intros Hs H.
  apply andb_prop in H; destruct H as [Hd Hn].
  unfold simulation, np_random_seed, BinaryLattice_init, sample_random_state,
    setup_containers, phases, started.
  unfold bind at 1 2 3 4 5 6 7 8 9 10 11, emit, set_rng, get_rng, set_data;
    simpl.
  rewrite Hs; simpl.
  rewrite Hd, Hn; simpl.
  unfold ret at 1; fold (lattice_of p).
  destruct (draw_state (lattice_of p) (seed_generator (seed p))) as [s0 g0].
  unfold bind at 1 2 3 4, set_rng, set_data, ret, emit; simpl.
  repeat rewrite <- app_assoc; reflexivity.
Qed.

Lemma simulation_invalid p w :
  valid_seed p = true ->
  valid_lattice p = false ->
  simulation p w = (rejected p w, Err (lattice_error p)).
Proof.
  unfold valid_seed, valid_lattice, lattice_error; intros Hs H.
  unfold simulation, np_random_seed, BinaryLattice_init, rejected.
  unfold bind at 1 2 3 4, emit, set_rng; simpl.
  rewrite Hs; simpl.
  destruct (dimensions_accepted (dimensions p)); simpl in *.
  - rewrite H; simpl.
    unfold raise; rewrite <- app_assoc; reflexivity.
  - unfold raise; rewrite <- app_assoc; reflexivity.
Qed.

Lemma phases_unfold lattice w :
  phases lattice w =
  match pre_simulation lattice w with
  | (w1, Ok _) =>
      match main_simulation lattice w1 with
      | (w2, Ok _) =>
          match post_simulation lattice w2 with
          | (w3, Ok _) => (w3, Ok (data w3))
          | (w3, Err e) => (w3, Err e)
          end
      | (w2, Err e) => (w2, Err e)
      end
  | (w1, Err e) => (w1, Err e)
  end.
Proof. reflexivity. Qed.

Lemma phases_calls lattice w :
  exists done rest,
    phase_calls (parameters (data w)) lattice
      (data (fst (phases lattice w))) = done ++ rest
    /\ calls (fst (phases lattice w)) = calls w ++ done
    /\ (forall d, snd (phases lattice w) = Ok d -> rest = []).
Proof.
  rewrite phases_unfold; unfold phase_calls.
  destruct (pre_simulation_calls lattice w) as (d1 & r1 & E1 & C1 & K1).
  destruct (pre_simulation_frame lattice w) as (P1 & _).
  destruct (pre_simulation lattice w) as [w1 [[]|e1]]; simpl in *.
  2:{ exists (map (sweep_call true) d1); eexists.
      split; [|split; [exact C1 | discriminate]].
      rewrite E1, map_app, <- app_assoc; reflexivity. }
  rewrite (K1 eq_refl), app_nil_r in E1; subst d1; clear K1.
  destruct (main_simulation_calls lattice w1) as (d2 & r2 & E2 & C2 & K2).
  destruct (main_simulation_frame lattice w1) as (P2 & _).
  rewrite P1 in E2.
  destruct (main_simulation lattice w1) as [w2 [[]|e2]]; simpl in *.
  2:{ exists (map (sweep_call true)
                (range (equilibration_sweeps (parameters (data w))))
              ++ CallSaveFullState :: map (sweep_call false) d2); eexists.
      split; [|split; [|discriminate]].
      - rewrite E2, map_app, <- ?app_assoc; simpl.
        rewrite <- ?app_assoc; reflexivity.
      - rewrite C2, C1, <- ?app_assoc; reflexivity. }
  rewrite (K2 eq_refl), app_nil_r in E2; subst d2; clear K2.
  destruct (post_simulation_calls lattice w2) as (d3 & r3 & E3 & C3 & K3).
  destruct (post_simulation_frame lattice w2) as (P3 & _).
  destruct (post_simulation lattice w2) as [w3 [[]|e3]]; simpl in *.
  - rewrite (K3 eq_refl), app_nil_r in E3.
    exists (map (sweep_call true)
              (range (equilibration_sweeps (parameters (data w))))
            ++ CallSaveFullState
               :: map (sweep_call false)
                    (range (sweeps (parameters (data w))))
            ++ CallWriteTrace :: d3), [].
    split; [|split; [|reflexivity]].
    + rewrite P3, E3, app_nil_r; reflexivity.
    + rewrite C3, C2, C1, <- ?app_assoc; simpl.
      rewrite <- ?app_assoc; reflexivity.
  - exists (map (sweep_call true)
              (range (equilibration_sweeps (parameters (data w))))
            ++ CallSaveFullState
               :: map (sweep_call false)
                    (range (sweeps (parameters (data w))))
            ++ CallWriteTrace :: d3), r3.
    split; [|split; [|discriminate]].
    + rewrite P3, E3, <- ?app_assoc; simpl.
      rewrite <- ?app_assoc; reflexivity.
    + rewrite C3, C2, C1, <- ?app_assoc; simpl.
      rewrite <- ?app_assoc; reflexivity.
Qed.

Lemma phases_ok lattice w w' d :
  phases lattice w = (w', Ok d) ->
  d = data w'
  /\ parameters d = parameters (data w)
  /\ reportable lattice d = true
  /\ disk w' = disk w ++ [trace d]
  /\ (forall o,
        count (accumulator_of o (estimators d))
        = count (accumulator_of o (estimators (data w)))
          + Z.of_nat (length (range (sweeps (parameters (data w)))))).
Proof.
  rewrite phases_unfold.
  destruct (pre_simulation_frame lattice w) as (P1 & _ & D1 & E1).
  destruct (pre_simulation lattice w) as [w1 [[]|e1]]; [|discriminate].
  simpl in *.
  destruct (main_simulation_frame lattice w1) as (P2 & _ & D2).
  pose proof (main_simulation_count lattice w1) as N2.
  destruct (main_simulation lattice w1) as [w2 [[]|e2]]; [|discriminate].
  simpl in *.
  destruct (post_simulation_frame lattice w2) as (P3 & _ & D3).
  pose proof (post_simulation_ok lattice w2) as R3.
  destruct (post_simulation lattice w2) as [w3 [[]|e3]]; [|discriminate].
  simpl in *.
  intros H; inversion H; subst w' d; clear H.
  rewrite P3.
  repeat split; auto.
  - congruence.
  - rewrite D3, D2, D1; reflexivity.
  - intros o; rewrite (N2 w2 o eq_refl), E1, P1; reflexivity.
Qed.

Lemma simulation_calls p w :
  exists done rest,
    startup_calls p
    ++ phase_calls p (lattice_of p) (data (fst (simulation p w)))
    = (CallSeed (seed p) :: done) ++ rest
    /\ calls (fst (simulation p w)) = calls w ++ CallSeed (seed p) :: done
    /\ (forall d, snd (simulation p w) = Ok d -> rest = []).
Proof.
  destruct (valid_seed p) eqn:S.
  2:{ rewrite (simulation_unseeded _ w S).
      exists []; eexists.
      split; [reflexivity|]; split; [reflexivity | discriminate]. }
  destruct (valid_lattice p) eqn:V.
  - rewrite (simulation_valid _ _ S V).
    destruct (phases_calls (lattice_of p) (started p w))
      as (done & rest & E & C & K).
    exists ([CallBinaryLattice; CallSampleRandomState; CallSetupContainers]
            ++ done), rest.
    split; [|split; auto].
    + simpl parameters in E; rewrite E; reflexivity.
    + rewrite C; simpl; rewrite <- app_assoc; reflexivity.
  - rewrite (simulation_invalid _ w S V).
    exists [CallBinaryLattice]; eexists.
    split; [reflexivity|]; split; [reflexivity | discriminate].
Qed.

Lemma simulation_ok_seed p w w' d :
  simulation p w = (w', Ok d) -> valid_seed p = true.
Proof.
  intros H; destruct (valid_seed p) eqn:S; auto.
  rewrite (simulation_unseeded _ w S) in H; discriminate.
Qed.

Lemma simulation_ok p w w' d :
  simulation p w = (w', Ok d) ->
  valid_lattice p = true
  /\ d = data w'
  /\ parameters d = p
  /\ reportable (lattice_of p) d = true
  /\ calls w' = calls w ++ startup_calls p ++ phase_calls p (lattice_of p) d
  /\ disk w' = disk w ++ [trace d]
  /\ (forall o,
        count (accumulator_of o (estimators d))
        = Z.of_nat (length (range (sweeps p)))).
Proof.
  intros H.
  pose proof (simulation_ok_seed _ _ _ _ H) as S.
  destruct (valid_lattice p) eqn:V.
  2:{ rewrite (simulation_invalid _ w S V) in H; discriminate. }
  destruct (simulation_calls p w) as (done & rest & E & C & K).
  rewrite H in E, C, K; simpl in E, C, K.
  rewrite (K d eq_refl), app_nil_r in E; rewrite <- E in C.
  rewrite (simulation_valid _ _ S V) in H.
  destruct (phases_ok _ _ _ _ H) as (Hd & Hp & Hr & Hk & Hn).
  simpl in Hp, Hk, Hn.
  subst d; repeat split; auto.
  intros o; rewrite Hn; destruct o; reflexivity.
Qed.

Lemma product_positive ds :
  existsb (fun d => d <? 1) ds = false -> 0 < product ds.
Proof.
  induction ds as [|d ds IH]; simpl; [lia|].
  intros H; apply orb_false_elim in H; destruct H as [Hd Hds].
  apply Z.ltb_ge in Hd; specialize (IH Hds); nia.
Qed.

Lemma valid_lattice_sites p :
  valid_lattice p = true -> 0 < number_sites (lattice_of p).
Proof.
  unfold valid_lattice, dimensions_accepted; intros H.
  apply andb_prop in H; destruct H as [Hd _].
  apply andb_prop in Hd; destruct Hd as [Hd _].
  apply negb_true_iff in Hd; apply product_positive; exact Hd.
Qed.

Lemma range_length n : Z.of_nat (length (range n)) = Z.max 0 n.
Proof.
  unfold range; rewrite length_map, length_seq; lia.
Qed.

Lemma started_sweepable p w :
  valid_lattice p = true ->
  Qle_bool (temperature p) 0 = false ->
  sweepable (lattice_of p) (started p w).
Proof.
  intros V HT; split; simpl; auto.
  apply draw_state_length.
  pose proof (valid_lattice_sites p V); lia.
Qed.

(** A run with an accepted seed, a valid lattice, a positive temperature and
    at least one production sweep completes. *)
Lemma simulation_completes p w :
  valid_seed p = true ->
  valid_lattice p = true ->
  Qle_bool (temperature p) 0 = false ->
  0 < sweeps p ->
  exists w' d, simulation p w = (w', Ok d).
Proof.
  intros S V HT Hn.
  rewrite (simulation_valid _ _ S V), phases_unfold.
  pose proof (started_sweepable p w V HT) as S0.
  destruct (pre_simulation_sweepable _ _ S0) as [S1 R1].
  destruct (pre_simulation_frame (lattice_of p) (started p w))
    as (P1 & _ & _ & E1).
  destruct (pre_simulation (lattice_of p) (started p w)) as [w1 r1].
  simpl in *; subst r1.
  destruct (main_simulation_sweepable _ _ S1) as [S2 R2].
  pose proof (main_simulation_count (lattice_of p) w1) as N2.
  destruct (main_simulation (lattice_of p) w1) as [w2 r2].
  simpl in *; subst r2.
  assert (R : reportable (lattice_of p) (data w2) = true).
  { pose proof (valid_lattice_sites p V) as Hs.
    pose proof (range_length (sweeps p)) as Hl.
    pose proof (N2 w2 Energy eq_refl) as N2e.
    pose proof (N2 w2 Magnetization eq_refl) as N2m.
    pose proof (N2 w2 MagnetizationEvenSites eq_refl) as N2v.
    pose proof (N2 w2 MagnetizationOddSites eq_refl) as N2o.
    rewrite E1, P1 in N2e, N2m, N2v, N2o.
    unfold reportable; simpl in *.
    repeat (apply andb_true_intro; split);
      apply negb_true_iff, Z.eqb_neq; lia. }
  rewrite (post_simulation_reportable _ _ R).
  eexists; eexists; reflexivity.
Qed.

(** *** Call histories *)

Lemma printed_app cs1 cs2 : printed (cs1 ++ cs2) = printed cs1 ++ printed cs2.
Proof. apply flat_map_app. Qed.

Lemma sweep_indices_app b cs1 cs2 :
  sweep_indices b (cs1 ++ cs2) = sweep_indices b cs1 ++ sweep_indices b cs2.
Proof. apply flat_map_app. Qed.

Lemma printed_sweeps b xs : printed (map (sweep_call b) xs) = [].
Proof. induction xs; simpl; auto. Qed.

Lemma seeds_sweeps b xs : filter is_seed (map (sweep_call b) xs) = [].
Proof. induction xs; simpl; auto. Qed.


Lemma sweep_indices_same b xs :
  sweep_indices b (map (sweep_call b) xs) = xs.
Proof.
  induction xs as [|x xs IH]; simpl; auto.
  rewrite eqb_reflx; simpl; f_equal; exact IH.
Qed.

Lemma sweep_indices_other b xs :
  sweep_indices b (map (sweep_call (negb b)) xs) = [].
Proof.
  induction xs as [|x xs IH]; simpl; auto.
  destruct b; simpl; exact IH.
Qed.

Lemma filter_prefix {A : Type} (f : A -> bool) (xs ys zs : list A) :
  xs ++ ys = zs -> filter f zs = [] -> filter f xs = [].
Proof.
  intros <-; rewrite filter_app; intros H.
  apply app_eq_nil in H; tauto.
Qed.

Lemma range_nth n k :
  0 <= k < n -> nth (Z.to_nat k) (range n) (-1) = k.
Proof.
  intros H; unfold range.
  rewrite (nth_indep _ (-1) (Z.of_nat 0))
    by (rewrite length_map, length_seq; lia).
  rewrite map_nth, seq_nth by lia; simpl; lia.
Qed.

(** ** The claims *)

(** C1.  When an accumulator holds no sample, requesting its moment fails
    with [NoSamplesRecordedError], and the reporting step fails too: it has
    handed the trace to the disk and printed nothing.  In every world a
    driver can reach the lattice has at least one site, and the error of
    the reporting step is then [NoSamplesRecordedError]. *)
Theorem C1_no_samples_is_an_error lattice w (o : Observable) :
  count (accumulator_of o (estimators (data w))) = 0 ->
  moment o w = (w, Err NoSamplesRecordedError)
  /\ exists e,
       post_simulation lattice w = (written w, Err e)
       /\ printed (calls (written w)) = printed (calls w)
       /\ (number_sites lattice <> 0 -> e = NoSamplesRecordedError).
Proof.
  intros H; split.
  - unfold moment, moment_of; run_monad; rewrite H; reflexivity.
  - assert (R : reportable lattice (data w) = false).
    { unfold reportable; destruct o; simpl in H; rewrite H; simpl;
        rewrite ?andb_false_r; reflexivity. }
    destruct (post_simulation_not_reportable _ _ R) as (e & E & He).
    exists e; split; [exact E|]; split.
    + simpl; rewrite printed_app; simpl; apply app_nil_r.
    + intros Hn; destruct He as [He | [_ He]]; [exact He | contradiction].
Qed.

(** C2.  A completed run prints exactly three values.  Each accumulator
    holds at least one sample, so each moment is its total divided by its
    count, and the values printed are the energy moment, the magnetization
    moment and the difference of the even-site and odd-site moments, each
    divided by the number of sites. *)
Theorem C2_reported_values p w w' d :
  simulation p w = (w', Ok d) ->
  let e := estimators d in
  let n := inject_Z (number_sites (lattice_of p)) in
  (forall o,
     moment_of (accumulator_of o e)
     = Ok (total (accumulator_of o e)
           / inject_Z (count (accumulator_of o e)))%Q)
  /\ number_sites (lattice_of p) = product (dimensions p)
  /\ exists evs,
       calls w' = calls w ++ evs
       /\ printed evs =
          [ ("Average energy"%string,
             (total (energy_acc e) / inject_Z (count (energy_acc e)) / n)%Q);
            ("FM order parameter"%string,
             (total (magnetization_acc e)
              / inject_Z (count (magnetization_acc e)) / n)%Q);
            ("AFM order parameter"%string,
             ((total (magnetization_even_sites_acc e)
               / inject_Z (count (magnetization_even_sites_acc e))
               - total (magnetization_odd_sites_acc e)
                 / inject_Z (count (magnetization_odd_sites_acc e))) / n)%Q)
          ].
Proof.
  intros H e n; subst e n.
  destruct (simulation_ok _ _ _ _ H) as (V & Hd & Hp & R & C & _ & N).
  split; [|split; [reflexivity|]].
  - intros o; unfold moment_of.
    unfold reportable in R.
    repeat (apply andb_prop in R; destruct R as [R ?]).
    destruct o; simpl;
      match goal with
      | Hc : negb (?x =? 0) = true |- context [?x =? 0] =>
          apply negb_true_iff in Hc; rewrite Hc; reflexivity
      end.
  - eexists; split; [exact C|].
    unfold phase_calls.
    rewrite !printed_app, !printed_sweeps; reflexivity.
Qed.

(** C8.  The reporting step leaves the data object, and with it the spin
    state and every accumulator, as the last production sweep left it,
    whether it succeeds or fails; it does not touch the random source
    either. *)
Theorem C8_report_is_read_only lattice w :
  data (fst (post_simulation lattice w)) = data w
  /\ estimators (data (fst (post_simulation lattice w)))
     = estimators (data w)
  /\ state (data (fst (post_simulation lattice w))) = state (data w)
  /\ np_random (fst (post_simulation lattice w)) = np_random w.
Proof.
  destruct (post_simulation_frame lattice w) as (Hd & Hg & _).
  rewrite Hd; auto.
Qed.





Lemma simulation_ok_equilibrated p w w' d :
  simulation p w = (w', Ok d) ->
  valid_seed p = true
  /\ valid_lattice p = true
  /\ snd (pre_simulation (lattice_of p) (started p w)) = Ok tt.
Proof.
  intros H.
  pose proof (simulation_ok_seed _ _ _ _ H) as S.
  destruct (simulation_ok _ _ _ _ H) as (V & _).
  repeat split; auto.
  rewrite (simulation_valid _ _ S V), phases_unfold in H.
  destruct (pre_simulation (lattice_of p) (started p w)) as [w1 [[]|e]];
    [reflexivity | discriminate].
Qed.


Lemma no_seed_after_seeding p lattice d :
  filter is_seed
    ([CallBinaryLattice; CallSampleRandomState; CallSetupContainers]
     ++ phase_calls p lattice d) = [].
Proof.
  unfold phase_calls.
  rewrite !filter_app, !seeds_sweeps; reflexivity.
Qed.

(** C5.  In every run whose seed [np.random.seed] accepts, the first call is
    the seeding of the random source with the seed of the parameters: it
    resets the generator and touches nothing else.  None of the calls that
    follow (lattice construction, sampling of the initial state, the sweeps,
    the report) seeds it again. *)
Theorem C5_seeded_once_first p w :
  valid_seed p = true ->
  exists rest,
    calls (fst (simulation p w)) = calls w ++ CallSeed (seed p) :: rest
    /\ filter is_seed rest = []
    /\ np_random_seed (seed p) w
       = ({| np_random := seed_generator (seed p);
             data := data w;
             disk := disk w;
             calls := calls w ++ [CallSeed (seed p)] |}, Ok tt).
Proof.
  intros S.
  destruct (simulation_calls p w) as (done & rest & E & C & _).
  exists done; split; [exact C|]; split.
  - assert (E' : done ++ rest
                 = [CallBinaryLattice; CallSampleRandomState;
                    CallSetupContainers]
                   ++ phase_calls p (lattice_of p)
                        (data (fst (simulation p w)))).
    { simpl in E |- *; inversion E; reflexivity. }
    apply (filter_prefix is_seed _ rest _ E'), no_seed_after_seeding.
  - unfold valid_seed in S.
    unfold np_random_seed, bind, emit, set_rng; simpl.
    rewrite S; reflexivity.
Qed.

(** C6.  The calls of a completed run are, in this order: the four
    start-up calls, one equilibration sweep for every index of
    [range equilibration_sweeps], the checkpoint, one production sweep for
    every index of [range sweeps], and the report.  Every accumulator ends
    with as many samples as there were production sweeps, so no
    equilibration sweep has recorded anything. *)
Theorem C6_phase_order p w w' d :
  simulation p w = (w', Ok d) ->
  calls w' =
    calls w
    ++ [CallSeed (seed p); CallBinaryLattice; CallSampleRandomState;
        CallSetupContainers]
    ++ map (fun i => CallSweepGrid i true) (range (equilibration_sweeps p))
    ++ [CallSaveFullState]
    ++ map (fun i => CallSweepGrid i false) (range (sweeps p))
    ++ report_calls (lattice_of p) d
  /\ Z.of_nat (length (range (equilibration_sweeps p)))
     = Z.max 0 (equilibration_sweeps p)
  /\ Z.of_nat (length (range (sweeps p))) = Z.max 0 (sweeps p)
  /\ (forall o,
        count (accumulator_of o (estimators d)) = Z.max 0 (sweeps p)).
Proof.
  intros H.
  destruct (simulation_ok _ _ _ _ H) as (_ & _ & _ & _ & C & _ & N).
  repeat split.
  - exact C.
  - apply range_length.
  - apply range_length.
  - intros o; rewrite N; apply range_length.
Qed.

(** C9.  In a completed run the sweep indices passed to [sweep_grid] by the
    production sweeps are 0, 1, ..., sweeps - 1 in this order, whatever the
    number of equilibration sweeps, and those passed by the equilibration
    sweeps are 0, 1, ..., equilibration_sweeps - 1. *)
Theorem C9_sweep_indices p w w' d :
  simulation p w = (w', Ok d) ->
  exists evs,
    calls w' = calls w ++ evs
    /\ sweep_indices false evs = range (sweeps p)
    /\ sweep_indices true evs = range (equilibration_sweeps p)
    /\ Z.of_nat (length (sweep_indices false evs)) = Z.max 0 (sweeps p)
    /\ (forall k, 0 <= k < sweeps p ->
          nth (Z.to_nat k) (sweep_indices false evs) (-1) = k)
    /\ (forall k, 0 <= k < equilibration_sweeps p ->
          nth (Z.to_nat k) (sweep_indices true evs) (-1) = k).
Proof.
  intros H.
  destruct (simulation_ok _ _ _ _ H) as (_ & _ & _ & _ & C & _ & _).
  eexists; split; [exact C|].
  assert (Hf : sweep_indices false
                 (startup_calls p ++ phase_calls p (lattice_of p) d)
               = range (sweeps p)).
  { unfold phase_calls; rewrite !sweep_indices_app.
    rewrite (sweep_indices_other false), sweep_indices_same; simpl.
    apply app_nil_r. }
  assert (Ht : sweep_indices true
                 (startup_calls p ++ phase_calls p (lattice_of p) d)
               = range (equilibration_sweeps p)).
  { unfold phase_calls; rewrite !sweep_indices_app.
    rewrite (sweep_indices_other true), sweep_indices_same; simpl.
    apply app_nil_r. }
  rewrite Hf, Ht; repeat split.
  - apply range_length.
  - apply range_nth.
  - apply range_nth.
Qed.

(** *** Independence from the disk and from earlier calls *)

Lemma sweep_grid_same lattice i b w1 w2 :
  same_process w1 w2 ->
  same_process (fst (sweep_grid lattice i b w1))
               (fst (sweep_grid lattice i b w2))
  /\ snd (sweep_grid lattice i b w1) = snd (sweep_grid lattice i b w2).
Proof.
  intros [Hg Hd]; unfold sweep_grid, same_process; run_monad.
  rewrite Hg, Hd.
  destruct (Qle_bool _ _); simpl; auto.
  destruct (negb _); simpl; auto.
  destruct (trial_updates _ _ _ _); simpl; auto.
Qed.

Lemma for_each_same {A : Type} (body : A -> M unit) :
  (forall i w1 w2, same_process w1 w2 ->
     same_process (fst (body i w1)) (fst (body i w2))
     /\ snd (body i w1) = snd (body i w2)) ->
  forall xs w1 w2, same_process w1 w2 ->
    same_process (fst (for_each xs body w1)) (fst (for_each xs body w2))
    /\ snd (for_each xs body w1) = snd (for_each xs body w2).
Proof.
  intros Hbody xs; induction xs as [|x xs IH]; intros w1 w2 Hw; simpl; auto.
  unfold bind.
  destruct (Hbody x w1 w2 Hw) as [Hs Hr].
  destruct (body x w1) as [u1 r1], (body x w2) as [u2 r2]; simpl in *.
  subst r2; destruct r1 as [[]|e]; simpl; auto.
Qed.

Lemma pre_simulation_same lattice w1 w2 :
  same_process w1 w2 ->
  same_process (fst (pre_simulation lattice w1))
               (fst (pre_simulation lattice w2))
  /\ snd (pre_simulation lattice w1) = snd (pre_simulation lattice w2).
Proof.
  intros Hw; rewrite !pre_simulation_unfold.
  destruct Hw as [Hg Hd]; rewrite Hd.
  apply for_each_same; [|split; auto].
  intros; apply sweep_grid_same; auto.
Qed.

Lemma main_simulation_same lattice w1 w2 :
  same_process w1 w2 ->
  same_process (fst (main_simulation lattice w1))
               (fst (main_simulation lattice w2))
  /\ snd (main_simulation lattice w1) = snd (main_simulation lattice w2).
Proof.
  intros Hw; rewrite !main_simulation_unfold.
  destruct Hw as [Hg Hd]; rewrite Hd.
  apply for_each_same.
  - intros; apply sweep_grid_same; auto.
  - split; simpl; [exact Hg | rewrite Hd; reflexivity].
Qed.

Lemma post_simulation_same lattice w1 w2 :
  same_process w1 w2 ->
  same_process (fst (post_simulation lattice w1))
               (fst (post_simulation lattice w2))
  /\ snd (post_simulation lattice w1) = snd (post_simulation lattice w2).
Proof.
  intros [Hg Hd]; unfold same_process.
  unfold post_simulation, write_trace_to_disk, moment, moment_of, py_div,
    print; run_monad.
  rewrite Hd.
  destruct (count (energy_acc (estimators (data w2))) =? 0); simpl; auto.
  destruct (number_sites lattice =? 0); simpl; auto.
  destruct (count (magnetization_acc (estimators (data w2))) =? 0);
    simpl; auto.
  destruct (count (magnetization_even_sites_acc (estimators (data w2))) =? 0);
    simpl; auto.
  destruct (count (magnetization_odd_sites_acc (estimators (data w2))) =? 0);
    simpl; auto.
Qed.

Lemma phases_same lattice w1 w2 :
  same_process w1 w2 ->
  same_process (fst (phases lattice w1)) (fst (phases lattice w2))
  /\ snd (phases lattice w1) = snd (phases lattice w2).
Proof.
  intros Hw; rewrite !phases_unfold.
  destruct (pre_simulation_same lattice _ _ Hw) as [H1 R1].
  destruct (pre_simulation lattice w1) as [u1 r1],
           (pre_simulation lattice w2) as [u2 r2]; simpl in *.
  subst r2; destruct r1 as [[]|e]; simpl; auto.
  destruct (main_simulation_same lattice _ _ H1) as [H2 R2].
  destruct (main_simulation lattice u1) as [v1 r1],
           (main_simulation lattice u2) as [v2 r2]; simpl in *.
  subst r2; destruct r1 as [[]|e]; simpl; auto.
  destruct (post_simulation_same lattice _ _ H2) as [H3 R3].
  destruct (post_simulation lattice v1) as [x1 r1],
           (post_simulation lattice v2) as [x2 r2]; simpl in *.
  subst r2; destruct r1 as [[]|e]; simpl; auto.
  split; auto; destruct H3 as [_ ->]; reflexivity.
Qed.

Lemma simulation_same p w1 w2 :
  snd (simulation p w1) = snd (simulation p w2)
  /\ (valid_seed p = true ->
      np_random (fst (simulation p w1)) = np_random (fst (simulation p w2))).
Proof.
  destruct (valid_seed p) eqn:S.
  - destruct (valid_lattice p) eqn:V.
    + rewrite !(simulation_valid _ _ S V).
      destruct (phases_same (lattice_of p) (started p w1) (started p w2))
        as [[Hg _] Hr]; [split; reflexivity | auto].
    + rewrite !(simulation_invalid _ _ S V); auto.
  - rewrite !(simulation_unseeded _ _ S); split; [reflexivity|discriminate].
Qed.

(** C4.  The outcome of [simulation] depends on the parameters only: two
    invocations with the same parameters, started in processes that differ
    in the state of the random source, in the data left by an earlier run,
    in what is on disk and in the calls made so far, return the same data
    object or fail with the same error.  In particular, when they complete,
    every final moment of the one is the final moment of the other. *)
Theorem C4_deterministic p w1 w2 :
  snd (simulation p w1) = snd (simulation p w2)
  /\ (forall d1 d2 o,
        snd (simulation p w1) = Ok d1 ->
        snd (simulation p w2) = Ok d2 ->
        d1 = d2
        /\ moment_of (accumulator_of o (estimators d1))
           = moment_of (accumulator_of o (estimators d2))).
Proof.
  destruct (simulation_same p w1 w2) as [Hr _]; split; auto.
  intros d1 d2 o H1 H2; rewrite Hr, H2 in H1; inversion H1; auto.
Qed.

(** *** Runs with few sweeps *)

Lemma range_nonpositive n : n <= 0 -> range n = [].
Proof.
  intros H; unfold range.
  replace (Z.to_nat n) with 0%nat by lia; reflexivity.
Qed.

Lemma first_sample (q : Q) : ((0 + q) / inject_Z (0 + 1))%Q = q.
Proof.
  destruct q as [a b]; unfold Qdiv, Qmult, Qplus, Qinv; simpl.
  f_equal; [lia | apply Pos.mul_1_r].
Qed.

(** C7.  A run with a seed that [np.random.seed] accepts, a lattice that
    [BinaryLattice] accepts (every dimension at least 1, a site count within
    the addressable range, as many coefficients as offsets) and a positive
    temperature, with no equilibration sweep and one production sweep,
    completes.  Its energy and magnetization accumulators hold one sample
    each, and their moments are the energy and the magnetization measured on
    the state that the single sweep has left, which is also the final
    state. *)
Theorem C7_single_production_sweep p w :
  valid_seed p = true ->
  valid_lattice p = true ->
  Qle_bool (temperature p) 0 = false ->
  equilibration_sweeps p = 0 ->
  sweeps p = 1 ->
  let lattice := lattice_of p in
  let initial := draw_state lattice (seed_generator (seed p)) in
  let swept :=
    fst (trial_updates lattice (temperature p) (fst initial) (snd initial)) in
  exists w' d,
    simulation p w = (w', Ok d)
    /\ state d = swept
    /\ count (energy_acc (estimators d)) = 1
    /\ count (magnetization_acc (estimators d)) = 1
    /\ moment_of (energy_acc (estimators d))
       = Ok (total_energy lattice swept)
    /\ moment_of (magnetization_acc (estimators d))
       = Ok (magnetization swept).
Proof.
  intros S V HT He Hs lattice initial swept.
  rewrite (simulation_valid _ _ S V), phases_unfold.
  rewrite pre_simulation_unfold.
  simpl parameters; rewrite He; simpl for_each; unfold ret at 1.
  rewrite main_simulation_unfold.
  simpl parameters; rewrite Hs; simpl for_each; unfold bind at 1.
  assert (S0 : sweepable (lattice_of p) (checkpointed (started p w)))
    by exact (started_sweepable p w V HT).
  rewrite (sweep_grid_ok _ 0 false _ S0); unfold ret at 1.
  pose proof (valid_lattice_sites p V) as Hn.
  rewrite post_simulation_reportable.
  2:{ unfold reportable; simpl.
      apply negb_true_iff, Z.eqb_neq; simpl in Hn; lia. }
  eexists; eexists; split; [reflexivity|].
  simpl; unfold moment_of; simpl.
  rewrite !first_sample; repeat split; reflexivity.
Qed.

(** C10.  A run that gets past its start-up and its equilibration (a seed
    that [np.random.seed] accepts, a lattice that [BinaryLattice] accepts, a
    positive temperature) and whose production-sweep count is zero (or
    negative) still takes the checkpoint and still hands the trace to the
    disk: after the start-up calls and the equilibration sweeps its calls
    are the checkpoint and the writing of the trace, the disk receives a
    trace that holds the checkpointed state, and only then does the report
    fail for want of samples. *)
Theorem C10_checkpoint_and_trace_without_sweeps p w :
  valid_seed p = true ->
  valid_lattice p = true ->
  Qle_bool (temperature p) 0 = false ->
  sweeps p <= 0 ->
  exists w',
    simulation p w = (w', Err NoSamplesRecordedError)
    /\ calls w' =
         calls w
         ++ startup_calls p
         ++ map (sweep_call true) (range (equilibration_sweeps p))
         ++ [CallSaveFullState; CallWriteTrace]
    /\ disk w' = disk w ++ [[state (data w')]]
    /\ trace (data w') = [state (data w')].
Proof.
  intros S V HT Hs.
  rewrite (simulation_valid _ _ S V), phases_unfold.
  pose proof (started_sweepable p w V HT) as S0.
  destruct (pre_simulation_sweepable _ _ S0) as [_ R1].
  destruct (pre_simulation_calls (lattice_of p) (started p w))
    as (done & rest & E1 & C1 & K1).
  destruct (pre_simulation_frame (lattice_of p) (started p w))
    as (P1 & T1 & D1 & A1).
  destruct (pre_simulation (lattice_of p) (started p w)) as [w1 r1].
  simpl in *; subst r1.
  rewrite (K1 eq_refl), app_nil_r in E1; subst done.
  rewrite main_simulation_unfold, P1, (range_nonpositive _ Hs).
  simpl for_each; unfold ret at 1.
  rewrite post_simulation_no_energy_samples
    by (simpl; rewrite A1; reflexivity).
  eexists; split; [reflexivity|].
  simpl; rewrite C1, D1, T1, <- ?app_assoc; simpl.
  rewrite <- ?app_assoc; auto.
Qed.

(** ** Further properties of the driver *)

Lemma sweep_grid_state_length lattice i b w :
  length (state (data (fst (sweep_grid lattice i b w))))
  = length (state (data w)).
Proof.
  unfold sweep_grid; run_monad.
  destruct (Qle_bool _ _); simpl; auto.
  destruct (negb _); simpl; auto.
  pose proof (trial_updates_length lattice
                (temperature (parameters (data w))) (state (data w))
                (np_random w)) as L.
  destruct (trial_updates _ _ _ _); simpl in *; exact L.
Qed.

Lemma pre_simulation_state_length lattice w :
  length (state (data (fst (pre_simulation lattice w))))
  = length (state (data w)).
Proof.
  rewrite pre_simulation_unfold.
  apply (for_each_invariant _
    (fun w' => length (state (data w')) = length (state (data w)))); auto.
  intros i w0 H; rewrite sweep_grid_state_length; exact H.
Qed.



(** The four ways in which the three phases can end. *)
Lemma phases_outcome lattice w :
  let p := parameters (data w) in
  let eqs := map (sweep_call true) (range (equilibration_sweeps p)) in
  let prods := map (sweep_call false) (range (sweeps p)) in
  (exists w1 e done rest,
     phases lattice w = (w1, Err e)
     /\ range (equilibration_sweeps p) = done ++ rest
     /\ calls w1 = calls w ++ map (sweep_call true) done
     /\ disk w1 = disk w)
  \/ (exists w2 e done rest,
        phases lattice w = (w2, Err e)
        /\ range (sweeps p) = done ++ rest
        /\ calls w2
           = calls w ++ eqs
             ++ CallSaveFullState :: map (sweep_call false) done
        /\ disk w2 = disk w)
  \/ (exists w2 e,
        phases lattice w = (written w2, Err e)
        /\ calls w2 = calls w ++ eqs ++ CallSaveFullState :: prods
        /\ disk w2 = disk w)
  \/ (exists w2,
        phases lattice w = (reported lattice w2, Ok (data w2))
        /\ calls w2 = calls w ++ eqs ++ CallSaveFullState :: prods
        /\ disk w2 = disk w).
Proof.
  intros p eqs prods; subst p eqs prods.
  rewrite phases_unfold.
  destruct (pre_simulation_calls lattice w) as (d1 & r1 & E1 & C1 & K1).
  destruct (pre_simulation_frame lattice w) as (P1 & _ & D1 & _).
  destruct (pre_simulation lattice w) as [w1 [[]|e1]]; simpl in *.
  2:{ left; exists w1, e1, d1, r1; auto. }
  rewrite (K1 eq_refl), app_nil_r in E1; subst d1; clear K1.
  destruct (main_simulation_calls lattice w1) as (d2 & r2 & E2 & C2 & K2).
  destruct (main_simulation_frame lattice w1) as (P2 & _ & D2).
  rewrite P1 in E2.
  destruct (main_simulation lattice w1) as [w2 [[]|e2]]; simpl in *.
  2:{ right; left; exists w2, e2, d2, r2; repeat split; auto.
      - rewrite C2, C1, <- app_assoc; reflexivity.
      - congruence. }
  rewrite (K2 eq_refl), app_nil_r in E2; subst d2; clear K2.
  assert (C : calls w2
              = calls w
                ++ map (sweep_call true)
                     (range (equilibration_sweeps (parameters (data w))))
                ++ CallSaveFullState
                   :: map (sweep_call false)
                        (range (sweeps (parameters (data w)))))
    by (rewrite C2, C1, <- app_assoc; reflexivity).
  assert (D : disk w2 = disk w) by congruence.
  right; right.
  destruct (reportable lattice (data w2)) eqn:R.
  - right; exists w2.
    rewrite (post_simulation_reportable _ _ R); auto.
  - left; destruct (post_simulation_not_reportable _ _ R) as (e & -> & _).
    exists w2, e; auto.
Qed.

(** The six ways in which a run can end. *)
Lemma simulation_outcome p w :
  let eqs := map (sweep_call true) (range (equilibration_sweeps p)) in
  let prods := map (sweep_call false) (range (sweeps p)) in
  simulation p w = (unseeded p w, Err ValueError)
  \/ simulation p w = (rejected p w, Err (lattice_error p))
  \/ (exists w1 e done rest,
        simulation p w = (w1, Err e)
        /\ range (equilibration_sweeps p) = done ++ rest
        /\ calls w1 = calls w ++ startup_calls p ++ map (sweep_call true) done
        /\ disk w1 = disk w)
  \/ (exists w2 e done rest,
        simulation p w = (w2, Err e)
        /\ range (sweeps p) = done ++ rest
        /\ calls w2
           = calls w ++ startup_calls p ++ eqs
             ++ CallSaveFullState :: map (sweep_call false) done
        /\ disk w2 = disk w)
  \/ (exists w2 e,
        simulation p w = (written w2, Err e)
        /\ calls w2
           = calls w ++ startup_calls p ++ eqs ++ CallSaveFullState :: prods
        /\ disk w2 = disk w)
  \/ (exists w2,
        simulation p w = (reported (lattice_of p) w2, Ok (data w2))
        /\ calls w2
           = calls w ++ startup_calls p ++ eqs ++ CallSaveFullState :: prods
        /\ disk w2 = disk w).
Proof.
  intros eqs prods; subst eqs prods.
  destruct (valid_seed p) eqn:S.
  2:{ left; apply simulation_unseeded, S. }
  right.
  destruct (valid_lattice p) eqn:V.
  2:{ left; apply simulation_invalid; assumption. }
  right; rewrite (simulation_valid _ _ S V).
  destruct (phases_outcome (lattice_of p) (started p w))
    as [H | [H | [H | H]]]; simpl in H.
  - destruct H as (w1 & e & done & rest & E & R & C & D).
    left; exists w1, e, done, rest; repeat split; auto.
    rewrite C, <- app_assoc; reflexivity.
  - destruct H as (w2 & e & done & rest & E & R & C & D).
    right; left; exists w2, e, done, rest; repeat split; auto.
    rewrite C, <- app_assoc; reflexivity.
  - destruct H as (w2 & e & E & C & D).
    right; right; left; exists w2, e; repeat split; auto.
    rewrite C, <- app_assoc; reflexivity.
  - destruct H as (w2 & E & C & D).
    right; right; right; exists w2; repeat split; auto.
    rewrite C, <- app_assoc; reflexivity.
Qed.

(** X1.  The report is all or nothing.  [post_simulation] first hands the
    trace to the disk, whatever follows.  It computes the three values before
    it prints any of them: either it succeeds and its calls are the writing
    of the trace followed by the three prints, or it fails and its only call
    is the writing of the trace, with nothing printed. *)
Theorem X1_report_is_all_or_nothing lattice w :
  disk (fst (post_simulation lattice w)) = disk w ++ [trace (data w)]
  /\ ((snd (post_simulation lattice w) = Ok tt
       /\ calls (fst (post_simulation lattice w))
          = calls w ++ report_calls lattice (data w)
       /\ length (printed (report_calls lattice (data w))) = 3%nat)
      \/ (exists e,
            snd (post_simulation lattice w) = Err e
            /\ calls (fst (post_simulation lattice w))
               = calls w ++ [CallWriteTrace])).
Proof.
  destruct (reportable lattice (data w)) eqn:R.
  - rewrite (post_simulation_reportable _ _ R); simpl; auto.
  - destruct (post_simulation_not_reportable _ _ R) as (e & -> & _).
    simpl; split; [reflexivity|]; right; exists e; auto.
Qed.

(** X2.  The calls of every run, failed or not, are an initial segment of
    one fixed sequence: start-up, equilibration sweeps, checkpoint,
    production sweeps, writing of the trace, prints.  The segment is the
    whole sequence exactly when the run completes; a run that fails stops
    short of it. *)
Theorem X2_history_is_initial_segment p w :
  exists evs rest,
    calls (fst (simulation p w)) = calls w ++ evs
    /\ evs ++ rest
       = sweep_schedule p
         ++ report_calls (lattice_of p) (data (fst (simulation p w)))
    /\ (forall d, snd (simulation p w) = Ok d -> rest = [])
    /\ (forall e, snd (simulation p w) = Err e -> rest <> []).
Proof.
  unfold sweep_schedule.
  destruct (simulation_outcome p w) as [H | [H | [H | [H | [H | H]]]]].
  - rewrite H; simpl.
    exists [CallSeed (seed p)]; eexists.
    split; [reflexivity|]; split; [reflexivity|].
    split; intros; discriminate.
  - rewrite H; simpl.
    exists [CallSeed (seed p); CallBinaryLattice]; eexists.
    split; [reflexivity|]; split; [reflexivity|].
    split; intros; discriminate.
  - destruct H as (w1 & e & done & rest & -> & R & C & _); simpl.
    exists (startup_calls p ++ map (sweep_call true) done).
    exists (map (sweep_call true) rest
            ++ CallSaveFullState
               :: map (sweep_call false) (range (sweeps p))
               ++ report_calls (lattice_of p) (data w1)).
    split; [exact C|]; split; [|split].
    + rewrite R, map_app, <- ?app_assoc; simpl.
      rewrite <- ?app_assoc; reflexivity.
    + intros; discriminate.
    + intros _ _ Hn; apply app_eq_nil in Hn; destruct Hn; discriminate.
  - destruct H as (w2 & e & done & rest & -> & R & C & _); simpl.
    exists (startup_calls p
            ++ map (sweep_call true) (range (equilibration_sweeps p))
            ++ CallSaveFullState :: map (sweep_call false) done).
    exists (map (sweep_call false) rest
            ++ report_calls (lattice_of p) (data w2)).
    split; [exact C|]; split; [|split].
    + rewrite R, map_app, <- ?app_assoc; simpl.
      rewrite <- ?app_assoc; simpl; rewrite <- ?app_assoc; reflexivity.
    + intros; discriminate.
    + intros _ _ Hn; apply app_eq_nil in Hn; destruct Hn; discriminate.
  - destruct H as (w2 & e & -> & C & _); simpl.
    exists (startup_calls p
            ++ map (sweep_call true) (range (equilibration_sweeps p))
            ++ CallSaveFullState
               :: map (sweep_call false) (range (sweeps p))
            ++ [CallWriteTrace]).
    exists (tl (report_calls (lattice_of p) (data w2))).
    split; [|split; [|split]].
    + rewrite C, <- ?app_assoc; simpl; rewrite <- ?app_assoc; reflexivity.
    + rewrite <- ?app_assoc; simpl; rewrite <- ?app_assoc; reflexivity.
    + intros; discriminate.
    + intros; discriminate.
  - destruct H as (w2 & -> & C & _); simpl.
    exists (startup_calls p
            ++ map (sweep_call true) (range (equilibration_sweeps p))
            ++ CallSaveFullState
               :: map (sweep_call false) (range (sweeps p))
            ++ report_calls (lattice_of p) (data w2)), [].
    split; [|split; [|split]].
    + rewrite C, <- ?app_assoc; simpl; rewrite <- ?app_assoc; reflexivity.
    + rewrite app_nil_r, <- ?app_assoc; simpl.
      rewrite <- ?app_assoc; reflexivity.
    + reflexivity.
    + intros; discriminate.
Qed.



(** X4.  A run that fails, at whatever point, prints nothing. *)
Theorem X4_failed_run_prints_nothing p w e :
  snd (simulation p w) = Err e ->
  printed (calls (fst (simulation p w))) = printed (calls w).
Proof.
  destruct (simulation_outcome p w) as [H | [H | [H | [H | [H | H]]]]].
  - rewrite H; simpl; intros _.
    rewrite printed_app; apply app_nil_r.
  - rewrite H; simpl; intros _.
    rewrite printed_app; apply app_nil_r.
  - destruct H as (w1 & e1 & done & rest & -> & _ & C & _); simpl; intros _.
    rewrite C, !printed_app, printed_sweeps; simpl; apply app_nil_r.
  - destruct H as (w2 & e2 & done & rest & -> & _ & C & _); simpl; intros _.
    rewrite C, !printed_app, printed_sweeps; simpl.
    rewrite printed_sweeps; apply app_nil_r.
  - destruct H as (w2 & e2 & -> & C & _); simpl; intros _.
    rewrite !printed_app, C, !printed_app, printed_sweeps; simpl.
    rewrite printed_sweeps, !app_nil_r; reflexivity.
  - destruct H as (w2 & -> & _); simpl; discriminate.
Qed.

(** X5.  When the seed is accepted and [BinaryLattice] refuses the lattice
    (a dimension below 1, a site count beyond the addressable range, or a
    number of coefficients that differs from the number of offsets), the run
    stops there with the error of the constructor: it has seeded the random
    source and attempted the construction, and nothing else.  No state is
    sampled, no data object is created, the disk is untouched; the random
    source stays reseeded. *)
Theorem X5_failed_construction_stops_the_run p w :
  valid_seed p = true ->
  valid_lattice p = false ->
  snd (simulation p w) = Err (lattice_error p)
  /\ calls (fst (simulation p w))
     = calls w ++ [CallSeed (seed p); CallBinaryLattice]
  /\ np_random (fst (simulation p w)) = seed_generator (seed p)
  /\ data (fst (simulation p w)) = data w
  /\ disk (fst (simulation p w)) = disk w.
Proof.
  intros S V; rewrite (simulation_invalid _ w S V); simpl; auto.
Qed.

(** X6.  Whether it succeeds or fails, [pre_simulation] calls nothing but
    [sweep_grid], with [equilibration_run] true and the indices 0, 1, 2, ...
    in order; it stops at the first sweep that fails and makes them all when
    it succeeds.  It leaves the accumulators, the history store, the disk and
    the parameters as they were, and the state keeps its length. *)
Theorem X6_equilibration_only_sweeps lattice w :
  exists done rest,
    range (equilibration_sweeps (parameters (data w))) = done ++ rest
    /\ calls (fst (pre_simulation lattice w))
       = calls w ++ map (fun i => CallSweepGrid i true) done
    /\ (snd (pre_simulation lattice w) = Ok tt -> rest = [])
    /\ estimators (data (fst (pre_simulation lattice w)))
       = estimators (data w)
    /\ trace (data (fst (pre_simulation lattice w))) = trace (data w)
    /\ disk (fst (pre_simulation lattice w)) = disk w
    /\ parameters (data (fst (pre_simulation lattice w)))
       = parameters (data w)
    /\ length (state (data (fst (pre_simulation lattice w))))
       = length (state (data w)).
Proof.
  destruct (pre_simulation_calls lattice w) as (done & rest & E & C & K).
  destruct (pre_simulation_frame lattice w) as (P & T & D & A).
  exists done, rest; repeat split; auto.
  apply pre_simulation_state_length.
Qed.

(** X7.  Whether its sweeps succeed or fail, [main_simulation] takes the
    checkpoint first: its first call is the checkpoint, the history store
    gains the state as it was on entry, before any production sweep has
    changed it, and only production sweeps with the indices 0, 1, 2, ...
    follow, up to the first that fails.  The disk is not touched. *)
Theorem X7_checkpoint_comes_first lattice w :
  exists done rest,
    range (sweeps (parameters (data w))) = done ++ rest
    /\ calls (fst (main_simulation lattice w))
       = calls w
         ++ CallSaveFullState :: map (fun i => CallSweepGrid i false) done
    /\ (snd (main_simulation lattice w) = Ok tt -> rest = [])
    /\ trace (data (fst (main_simulation lattice w)))
       = trace (data w) ++ [state (data w)]
    /\ disk (fst (main_simulation lattice w)) = disk w
    /\ parameters (data (fst (main_simulation lattice w)))
       = parameters (data w).
Proof.
  destruct (main_simulation_calls lattice w) as (done & rest & E & C & K).
  destruct (main_simulation_frame lattice w) as (P & T & D).
  exists done, rest; repeat split; auto.
Qed.

(** A marked element of [a ++ m ++ r], where neither [a] nor [r] holds a
    marked element, lies in [m]. *)
Lemma split_in_the_middle {A : Type} (f : A -> bool)
    (a m r before after : list A) x :
  before ++ x :: after = a ++ m ++ r ->
  f x = true -> filter f a = [] -> filter f r = [] ->
  exists m1 m2, m = m1 ++ x :: m2 /\ before = a ++ m1.
Proof.
  intros E Hx Ha Hr; revert before E.
  induction a as [|y a IHa]; simpl in *.
  - clear Ha; induction m as [|y m IHm]; simpl; intros before E.
    + exfalso.
      assert (Hin : In x (filter f r)).
      { apply filter_In; split; auto. rewrite <- E; apply in_elt. }
      rewrite Hr in Hin; exact Hin.
    + destruct before as [|b before]; simpl in E; inversion E; subst.
      * exists [], m; auto.
      * destruct (IHm _ H1) as (m1 & m2 & -> & ->).
        exists (y :: m1), m2; auto.
  - destruct (f y) eqn:Hy; [discriminate|].
    intros [|b before] E; simpl in E; inversion E; subst.
    + congruence.
    + destruct (IHa Ha _ H1) as (m1 & m2 & -> & ->).
      exists m1, m2; auto.
Qed.

Lemma productions_sweeps xs :
  filter is_production (map (sweep_call true) xs) = [].
Proof. induction xs; simpl; auto. Qed.

Lemma no_production_in_report lattice d :
  filter is_production (report_calls lattice d) = [].
Proof. reflexivity. Qed.

(** X8.  In every run, failed or not, a production sweep is made only after
    everything that precedes it in the schedule: wherever
    [sweep_grid (i, equilibration_run = False)] occurs among the calls of
    the run, the calls before it are, in this order, the start-up calls,
    every equilibration sweep, the checkpoint and the production sweeps with
    the indices that come before [i] in [range(sweeps)]. *)
Theorem X8_production_waits_for_equilibration p w before i after :
  calls (fst (simulation p w))
  = calls w ++ before ++ CallSweepGrid i false :: after ->
  exists earlier later,
    range (sweeps p) = earlier ++ i :: later
    /\ before
       = startup_calls p
         ++ map (sweep_call true) (range (equilibration_sweeps p))
         ++ CallSaveFullState :: map (sweep_call false) earlier.
Proof.
  intros H.
  destruct (simulation_calls p w) as (done & rest & E & C & _).
  rewrite C in H; apply app_inv_head in H.
  rewrite H in E; clear H C done.
  rewrite <- app_assoc in E; simpl in E.
  assert (E' : before ++ CallSweepGrid i false :: after ++ rest
               = (startup_calls p
                  ++ map (sweep_call true) (range (equilibration_sweeps p))
                  ++ [CallSaveFullState])
                 ++ map (sweep_call false) (range (sweeps p))
                 ++ report_calls (lattice_of p)
                      (data (fst (simulation p w)))).
  { rewrite <- E; unfold phase_calls.
    rewrite <- ?app_assoc; simpl; rewrite <- ?app_assoc; reflexivity. }
  apply (split_in_the_middle is_production) in E'.
  - destruct E' as (m1 & m2 & Hm & Hb).
    apply map_eq_app in Hm; destruct Hm as (l1 & l2 & Hr & H1 & H2).
    apply map_eq_cons in H2; destruct H2 as (y & l3 & -> & Hy & _).
    inversion Hy; subst y m1.
    exists l1, l3; split; [exact Hr|].
    rewrite Hb, <- ?app_assoc; simpl; rewrite <- ?app_assoc; reflexivity.
  - reflexivity.
  - rewrite !filter_app, productions_sweeps; reflexivity.
  - apply no_production_in_report.
Qed.



End DriverFacts.





(** ** The claims on concrete runs

    Each theorem above that has a hypothesis is applied here to a run of the
    concrete kernel.  Two runs with a seed that [np.random.seed] refuses
    show why C3 and C5 are stated of the runs that get past their
    start-up. *)

(** C1 on a process whose data object holds no sample. *)
Lemma C1_no_samples_witness :
  count (accumulator_of Energy (estimators (data fresh_world))) = 0
  /\ moment Energy fresh_world = (fresh_world, Err NoSamplesRecordedError)
  /\ snd (post_simulation (lattice_of idle_parameters) fresh_world)
     = Err NoSamplesRecordedError.
Proof.
  split; [reflexivity|].
  destruct (@C1_no_samples_is_an_error reference_core
              (lattice_of idle_parameters) fresh_world Energy eq_refl)
    as (Hm & e & Hp & _ & He).
  split; [exact Hm|].
  rewrite Hp; simpl; f_equal; apply He; vm_compute; discriminate.
Defined.

(** C2 on a run with two equilibration and three production sweeps. *)
Lemma C2_reported_values_witness :
  let run := simulation long_parameters used_world in
  run = (fst run, Ok (data (fst run)))
  /\ exists evs,
       calls (fst run) = calls used_world ++ evs
       /\ map fst (printed evs)
          = ["Average energy"; "FM order parameter";
             "AFM order parameter"]%string.
Proof.
  intros run.
  assert (Hs : snd run = Ok (data (fst run))) by (vm_compute; reflexivity).
  assert (H : run = (fst run, Ok (data (fst run))))
    by (rewrite <- Hs; apply surjective_pairing).
  split; [exact H|].
  destruct (@C2_reported_values reference_core long_parameters used_world _ _ H)
    as (_ & _ & evs & C & P).
  exists evs; split; [exact C | rewrite P; reflexivity].
Defined.

(** C6 on the same run. *)
Lemma C6_phase_order_witness :
  let run := simulation long_parameters used_world in
  run = (fst run, Ok (data (fst run)))
  /\ calls (fst run)
     = calls used_world
       ++ [CallSeed 7; CallBinaryLattice; CallSampleRandomState;
           CallSetupContainers; CallSweepGrid 0 true; CallSweepGrid 1 true;
           CallSaveFullState; CallSweepGrid 0 false; CallSweepGrid 1 false;
           CallSweepGrid 2 false]
       ++ report_calls (lattice_of long_parameters) (data (fst run))
  /\ count (accumulator_of Energy (estimators (data (fst run)))) = 3.
Proof.
  intros run.
  assert (Hs : snd run = Ok (data (fst run))) by (vm_compute; reflexivity).
  assert (H : run = (fst run, Ok (data (fst run))))
    by (rewrite <- Hs; apply surjective_pairing).
  split; [exact H|].
  destruct (@C6_phase_order reference_core long_parameters used_world _ _ H)
    as (C & _ & _ & N).
  split.
  - rewrite C.
    generalize (report_calls (lattice_of long_parameters) (data (fst run))).
    intros report; reflexivity.
  - rewrite (N Energy); reflexivity.
Defined.

(** C9 on the same run. *)
Lemma C9_sweep_indices_witness :
  let run := simulation long_parameters used_world in
  run = (fst run, Ok (data (fst run)))
  /\ exists evs,
       calls (fst run) = calls used_world ++ evs
       /\ sweep_indices false evs = [0; 1; 2]
       /\ sweep_indices true evs = [0; 1].
Proof.
  intros run.
  assert (Hs : snd run = Ok (data (fst run))) by (vm_compute; reflexivity).
  assert (H : run = (fst run, Ok (data (fst run))))
    by (rewrite <- Hs; apply surjective_pairing).
  split; [exact H|].
  destruct (@C9_sweep_indices reference_core long_parameters used_world _ _ H)
    as (evs & C & Hf & Ht & _).
  exists evs; split; [exact C|]; split; [exact Hf | exact Ht].
Defined.

(** C7 on the 4 x 4 lattice of the end-to-end scenario, seed 42. *)
Lemma C7_single_production_sweep_witness :
  valid_seed example_parameters = true
  /\ valid_lattice example_parameters = true
  /\ Qle_bool (temperature example_parameters) 0 = false
  /\ exists w' d,
       simulation example_parameters fresh_world = (w', Ok d)
       /\ count (energy_acc (estimators d)) = 1
       /\ count (magnetization_acc (estimators d)) = 1
       /\ moment_of (energy_acc (estimators d))
          = Ok (lattice_energy (lattice_of example_parameters) (state d))
       /\ moment_of (magnetization_acc (estimators d))
          = Ok (spin_sum (state d)).
Proof.
  split; [reflexivity|]; split; [reflexivity|]; split; [reflexivity|].
  destruct (@C7_single_production_sweep reference_core example_parameters
              fresh_world eq_refl eq_refl eq_refl eq_refl eq_refl)
    as (w' & d & H & Hs & He & Hm & Me & Mm).
  exists w', d; rewrite Hs; repeat split; assumption.
Defined.

(** C10 on a run with two equilibration sweeps and no production sweep. *)
Lemma C10_checkpoint_and_trace_witness :
  valid_seed idle_parameters = true
  /\ valid_lattice idle_parameters = true
  /\ sweeps idle_parameters <= 0
  /\ exists w',
       simulation idle_parameters fresh_world
       = (w', Err NoSamplesRecordedError)
       /\ calls w'
          = [CallSeed 7; CallBinaryLattice; CallSampleRandomState;
             CallSetupContainers; CallSweepGrid 0 true; CallSweepGrid 1 true;
             CallSaveFullState; CallWriteTrace]
       /\ disk w' = [[state (data w')]].
Proof.
  split; [reflexivity|]; split; [reflexivity|]; split; [simpl; lia|].
  destruct (@C10_checkpoint_and_trace_without_sweeps reference_core
              idle_parameters fresh_world eq_refl eq_refl eq_refl
              ltac:(simpl; lia))
    as (w' & H & C & D & _).
  exists w'; repeat split; assumption.
Defined.

(** X4 on a run without production sweep, which fails in the report. *)
Lemma X4_failed_run_prints_nothing_witness :
  snd (simulation idle_parameters used_world) = Err NoSamplesRecordedError
  /\ printed (calls (fst (simulation idle_parameters used_world)))
     = printed (calls used_world).
Proof.
  assert (H : snd (simulation idle_parameters used_world)
              = Err NoSamplesRecordedError) by (vm_compute; reflexivity).
  split; [exact H|].
  exact (@X4_failed_run_prints_nothing reference_core idle_parameters
           used_world _ H).
Defined.

(** X5 on a lattice with an axis of length zero and on a lattice with more
    sites than can be addressed. *)
Lemma X5_failed_construction_witness :
  (valid_seed invalid_parameters = true
   /\ valid_lattice invalid_parameters = false
   /\ snd (simulation invalid_parameters fresh_world)
      = Err InvalidDimensionsError
   /\ calls (fst (simulation invalid_parameters fresh_world))
      = [CallSeed 3; CallBinaryLattice])
  /\ (valid_seed oversized_parameters = true
      /\ valid_lattice oversized_parameters = false
      /\ snd (simulation oversized_parameters fresh_world)
         = Err InvalidDimensionsError
      /\ calls (fst (simulation oversized_parameters fresh_world))
         = [CallSeed 3; CallBinaryLattice]).
Proof.
  split; (split; [reflexivity|]; split; [reflexivity|]).
  - destruct (@X5_failed_construction_stops_the_run reference_core
                invalid_parameters fresh_world eq_refl eq_refl)
      as (R & C & _).
    split; [exact R | exact C].
  - destruct (@X5_failed_construction_stops_the_run reference_core
                oversized_parameters fresh_world eq_refl eq_refl)
      as (R & C & _).
    split; [exact R | exact C].
Defined.

(** X8 on the run with two equilibration and three production sweeps, at
    its second production sweep. *)
Lemma X8_production_waits_witness :
  let evs := calls (fst (simulation long_parameters used_world)) in
  let before :=
    [CallSeed 7; CallBinaryLattice; CallSampleRandomState;
     CallSetupContainers; CallSweepGrid 0 true; CallSweepGrid 1 true;
     CallSaveFullState; CallSweepGrid 0 false] in
  evs = calls used_world ++ before ++ CallSweepGrid 1 false :: skipn 11 evs
  /\ exists earlier later,
       range (sweeps long_parameters) = earlier ++ 1 :: later
       /\ before
          = startup_calls long_parameters
            ++ map (sweep_call true)
                 (range (equilibration_sweeps long_parameters))
            ++ CallSaveFullState :: map (sweep_call false) earlier.
Proof.
  intros evs before.
  assert (H : evs
              = calls used_world
                ++ before ++ CallSweepGrid 1 false :: skipn 11 evs)
    by (vm_compute; reflexivity).
  split; [exact H|].
  exact (@X8_production_waits_for_equilibration reference_core
           long_parameters used_world before 1 (skipn 11 evs) H).
Defined.




(** The two invocations of C4 on the 4 x 4 lattice, one in a fresh process
    and one in a process in which something else has already run: both
    complete, with the same data. *)
Lemma C4_deterministic_witness :
  let run1 := simulation example_parameters fresh_world in
  let run2 := simulation example_parameters used_world in
  snd run1 = Ok (data (fst run1))
  /\ snd run2 = Ok (data (fst run2))
  /\ forall o,
       moment_of (accumulator_of o (estimators (data (fst run1))))
       = moment_of (accumulator_of o (estimators (data (fst run2)))).
Proof.
  intros run1 run2.
  assert (H1 : snd run1 = Ok (data (fst run1))) by (vm_compute; reflexivity).
  assert (H2 : snd run2 = Ok (data (fst run2))) by (vm_compute; reflexivity).
  split; [exact H1|]; split; [exact H2|].
  intros o.
  destruct (@C4_deterministic reference_core example_parameters fresh_world
              used_world) as (_ & M).
  exact (proj2 (M _ _ o H1 H2)).
Defined.

(** A run whose seed is refused does not seed the random source: the
    generator is left as the process had it, which is not the state that
    the seed would have given. *)
Lemma C5_refused_seed_is_not_seeded :
  snd (simulation unseedable_parameters used_world) = Err ValueError
  /\ np_random (fst (simulation unseedable_parameters used_world))
     = np_random used_world
  /\ np_random (fst (simulation unseedable_parameters used_world))
     <> seed_generator (seed unseedable_parameters).
Proof.
  rewrite (@simulation_unseeded reference_core unseedable_parameters
             used_world eq_refl).
  split; [reflexivity|]; split; [reflexivity|].
  vm_compute; discriminate.
Qed.

(** C5 on the 4 x 4 lattice, seed 42, in a process whose generator was in
    use. *)
Lemma C5_seeded_once_first_witness :
  valid_seed example_parameters = true
  /\ exists rest,
       calls (fst (simulation example_parameters used_world))
       = calls used_world ++ CallSeed 42 :: rest
       /\ filter is_seed rest = []
       /\ np_random (fst (np_random_seed 42 used_world)) = seed_generator 42.
Proof.
  split; [reflexivity|].
  destruct (@C5_seeded_once_first reference_core example_parameters
              used_world eq_refl)
    as (rest & C & F & G).
  exists rest; split; [exact C|]; split; [exact F|].
  change (seed example_parameters) with 42 in G.
  rewrite G; reflexivity.
Defined.
